(** * GitHub Wrapped: the fetch / filter / aggregate pipeline of [main.py]

    A shallow embedding of [src/main.py].  JSON values returned by the
    GitHub API are first-order data; Python exceptions, the [sys.exit] of
    [error] and a [while True] loop that is still running are the three
    ways a function can fail to return a value. *)

From Stdlib Require Import ZArith List String Ascii Bool Lia Permutation Sorted.
Import ListNotations.
Local Open Scope string_scope.
Local Open Scope list_scope.
Local Open Scope Z_scope.
Set Warnings "-register-all".

(** ** JSON values, as [r.json()] delivers them

    Objects are association lists read left to right.  Numbers are the
    integers; a JSON number with a fraction would become a Python [float],
    whose arithmetic is outside this development. *)

Inductive json : Type :=
| JNull
| JBool (b : bool)
| JInt (n : Z)
| JStr (s : string)
| JList (items : list json)
| JDict (fields : list (string * json)).

(** The Python exceptions the code can raise. *)
Inductive exn : Type :=
| KeyError (k : string)
| TypeError
| ValueError
| AttributeError
| JSONDecodeError
| OverflowError.

(** What a call can do: return, call [error msg] (a red panel followed by
    [sys.exit(1)]), raise an exception nobody catches, or still be inside
    its loop when the fuel of the model is spent. *)
Inductive result (A : Type) : Type :=
| Ok (a : A)
| Fatal (msg : string)
| Raise (e : exn)
| OutOfFuel.

Arguments Ok {A} a.
Arguments Fatal {A} msg.
Arguments Raise {A} e.
Arguments OutOfFuel {A}.

Definition bind {A B : Type} (m : result A) (k : A -> result B) : result B :=
  match m with
  | Ok a => k a
  | Fatal msg => Fatal msg
  | Raise e => Raise e
  | OutOfFuel => OutOfFuel
  end.

Notation "x <- m ;; k" := (bind m (fun x => k))
  (at level 61, m at next level, right associativity).

Definition is_ok {A : Type} (m : result A) : bool :=
  match m with Ok _ => true | _ => false end.

(** ** Python primitives on JSON values *)

Fixpoint lookup (k : string) (d : list (string * json)) : option json :=
  match d with
  | [] => None
  | (k', v) :: d' => if String.eqb k k' then Some v else lookup k d'
  end.

(** [bool(v)] *)
Definition truthy (v : json) : bool :=
  match v with
  | JNull => false
  | JBool b => b
  | JInt n => negb (n =? 0)
  | JStr s => negb (String.eqb s "")
  | JList items => match items with [] => false | _ :: _ => true end
  | JDict fields => match fields with [] => false | _ :: _ => true end
  end.

(** [isinstance(v, list)] *)
Definition is_list (v : json) : bool :=
  match v with JList _ => true | _ => false end.

Definition list_items (v : json) : list json :=
  match v with JList items => items | _ => [] end.

(** [v[k]] for a string [k] *)
Definition getitem (v : json) (k : string) : result json :=
  match v with
  | JDict fields =>
      match lookup k fields with
      | Some x => Ok x
      | None => Raise (KeyError k)
      end
  | _ => Raise TypeError
  end.

(** [v.get(k, default)] *)
Definition dict_get (v : json) (k : string) (default : json) : result json :=
  match v with
  | JDict fields =>
      match lookup k fields with
      | Some x => Ok x
      | None => Ok default
      end
  | _ => Raise AttributeError
  end.

(** [v == s] for a string literal [s] *)
Definition eq_str (v : json) (s : string) : bool :=
  match v with JStr s' => String.eqb s' s | _ => false end.

(** [n + v] for an [int] [n] *)
Definition int_add (n : Z) (v : json) : result Z :=
  match v with
  | JInt m => Ok (n + m)
  | JBool b => Ok (n + (if b then 1 else 0))
  | _ => Raise TypeError
  end.

(** [v[:10]] *)
Definition slice10 (v : json) : result json :=
  match v with
  | JStr s => Ok (JStr (substring 0 10 s))
  | JList items => Ok (JList (firstn 10 items))
  | _ => Raise TypeError
  end.

(** [data[-1]] on a non-empty list *)
Definition last_item (items : list json) : json := last items JNull.

(** ** Counters

    A [collections.Counter] is a dict: keys in insertion order, and keys
    compared with [==], under which [True] is [1] and [False] is [0]. *)

Inductive key : Type :=
| KNone
| KNum (n : Z)
| KStr (s : string).

Definition key_eqb (a b : key) : bool :=
  match a, b with
  | KNone, KNone => true
  | KNum n, KNum m => n =? m
  | KStr s, KStr t => String.eqb s t
  | _, _ => false
  end.

(** [hash(v)]: lists and dicts are unhashable. *)
Definition hash_key (v : json) : result key :=
  match v with
  | JNull => Ok KNone
  | JBool b => Ok (KNum (if b then 1 else 0))
  | JInt n => Ok (KNum n)
  | JStr s => Ok (KStr s)
  | JList _ | JDict _ => Raise TypeError
  end.

Definition counter : Type := list (key * Z).

Fixpoint count_of (k : key) (c : counter) : Z :=
  match c with
  | [] => 0
  | (k', n) :: c' => if key_eqb k k' then n else count_of k c'
  end.

(** [c[k] += 1] on an already hashed key *)
Fixpoint incr (k : key) (c : counter) : counter :=
  match c with
  | [] => [(k, 1)]
  | (k', n) :: c' =>
      if key_eqb k k' then (k', n + 1) :: c' else (k', n) :: incr k c'
  end.

(** [c[v] += 1] *)
Definition counter_incr (v : json) (c : counter) : result counter :=
  k <- hash_key v ;; Ok (incr k c).

(** [sorted(c.items(), key=itemgetter(1), reverse=True)]: a stable sort,
    so entries of equal count stay in insertion order. *)
Fixpoint insert_desc (x : key * Z) (l : counter) : counter :=
  match l with
  | [] => [x]
  | y :: l' => if snd x <? snd y then y :: insert_desc x l' else x :: l
  end.

Definition sort_desc (c : counter) : counter :=
  fold_right insert_desc [] c.

Definition most_common (n : nat) (c : counter) : counter :=
  firstn n (sort_desc c).

(** ** The HTTP adapter: [github_request] *)

Inductive response : Type :=
| Transport (e : string)
| Http (status_code : Z) (body : option json).

Definition github_request (r : response) : result json :=
  match r with
  | Transport e => Fatal (String.append "Network error: " e)
  | Http status_code body =>
      if status_code =? 404 then Fatal "User not found."
      else if (status_code =? 401) || (status_code =? 403)
      then Fatal "Authentication failed or API rate limit exceeded."
      else if 500 <=? status_code
      then Fatal "GitHub server error. Try again later."
      else match body with
           | Some v => Ok v
           | None => Raise JSONDecodeError
           end
  end.

(** ** Time

    Instants are microseconds since the Unix epoch, the resolution of
    [datetime.now].  [timedelta(days=d)] and [now - delta] raise
    [OverflowError] outside the ranges of the [datetime] module. *)

Definition us_per_day : Z := 86400000000.
Definition timedelta_max_days : Z := 999999999.
Definition datetime_min : Z := -62135596800000000.
Definition datetime_max : Z := 253402300799999999.

(** [datetime.now(timezone.utc) - timedelta(days=days)] *)
Definition compute_cutoff (now days : Z) : result Z :=
  if timedelta_max_days <? Z.abs days then Raise OverflowError
  else
    let cutoff := now - days * us_per_day in
    if (cutoff <? datetime_min) || (datetime_max <? cutoff)
    then Raise OverflowError
    else Ok cutoff.

Section Fetch.

(** [datetime.strptime(s, "%Y-%m-%dT%H:%M:%SZ").replace(tzinfo=utc)] on a
    string: the instant, or [None] where Python raises [ValueError]. *)
Variable strptime : string -> option Z.

(** the same call on an arbitrary JSON value *)
Definition parse_date (v : json) : result Z :=
  match v with
  | JStr s =>
      match strptime s with
      | Some t => Ok t
      | None => Raise ValueError
      end
  | _ => Raise TypeError
  end.

(** [strptime(ev["created_at"], ...)] *)
Definition created_at (ev : json) : result Z :=
  c <- getitem ev "created_at" ;; parse_date c.

(** *** [fetch_events], lines 61-77: the body of the loop on one page.
    The boolean says whether the loop breaks. *)
Definition events_page (cutoff : Z) (data : json) (events : list json)
  : result (bool * list json) :=
  if negb (truthy data) || negb (is_list data) then Ok (true, events)
  else
    let items := list_items data in
    last_event_date <- created_at (last_item items) ;;
    let events := events ++ items in
    if (last_event_date <? cutoff) || (Z.of_nat (List.length items) <? 100)
    then Ok (true, events)
    else Ok (false, events).

(** The loop; it returns the accumulated events and the number of the last
    page requested, which is the number of requests issued. *)
Fixpoint events_loop (feed : nat -> response) (cutoff : Z)
         (fuel : nat) (page : nat) (events : list json)
  : result (list json * nat) :=
  match fuel with
  | O => OutOfFuel
  | S fuel' =>
      data <- github_request (feed page) ;;
      step <- events_page cutoff data events ;;
      let (stop, events) := (step : bool * list json) in
      if stop then Ok (events, page)
      else events_loop feed cutoff fuel' (S page) events
  end.

(** *** lines 79-82: the window filter *)
Fixpoint window_filter (cutoff : Z) (events : list json)
  : result (list json) :=
  match events with
  | [] => Ok []
  | ev :: rest =>
      t <- created_at ev ;;
      filtered <- window_filter cutoff rest ;;
      Ok (if cutoff <=? t then ev :: filtered else filtered)
  end.

Definition fetch_events (feed : nat -> response) (now days : Z)
           (fuel : nat) : result (list json) :=
  cutoff <- compute_cutoff now days ;;
  fetched <- events_loop feed cutoff fuel 1%nat [] ;;
  window_filter cutoff (fst fetched).

(** *** [fetch_repos] *)
Definition repos_page (data : json) (repos : list json)
  : bool * list json :=
  if negb (truthy data) || negb (is_list data) then (true, repos)
  else
    let items := list_items data in
    let repos := repos ++ items in
    if Z.of_nat (List.length items) <? 100 then (true, repos)
    else (false, repos).

Fixpoint repos_loop (feed : nat -> response)
         (fuel : nat) (page : nat) (repos : list json)
  : result (list json * nat) :=
  match fuel with
  | O => OutOfFuel
  | S fuel' =>
      data <- github_request (feed page) ;;
      let (stop, repos) := repos_page data repos in
      if stop then Ok (repos, page)
      else repos_loop feed fuel' (S page) repos
  end.

Definition fetch_repos (feed : nat -> response) (fuel : nat)
  : result (list json) :=
  fetched <- repos_loop feed fuel 1%nat [] ;;
  Ok (fst fetched).

End Fetch.

(** ** [analyze_events] *)

Record stats : Type := mkStats {
  total_events : Z;
  commits : Z;
  prs_opened : Z;
  prs_merged : Z;
  issues : Z;
  repo_counter : counter;
  day_counter : counter
}.

Definition init_stats (events : list json) : stats :=
  mkStats (Z.of_nat (List.length events)) 0 0 0 0 [] [].

Definition with_histograms (st : stats) (rc dc : counter) : stats :=
  mkStats (total_events st) (commits st) (prs_opened st) (prs_merged st)
          (issues st) rc dc.

Definition with_commits (st : stats) (n : Z) : stats :=
  mkStats (total_events st) n (prs_opened st) (prs_merged st)
          (issues st) (repo_counter st) (day_counter st).

Definition incr_prs_opened (st : stats) : stats :=
  mkStats (total_events st) (commits st) (prs_opened st + 1) (prs_merged st)
          (issues st) (repo_counter st) (day_counter st).

Definition incr_prs_merged (st : stats) : stats :=
  mkStats (total_events st) (commits st) (prs_opened st) (prs_merged st + 1)
          (issues st) (repo_counter st) (day_counter st).

Definition incr_issues (st : stats) : stats :=
  mkStats (total_events st) (commits st) (prs_opened st) (prs_merged st)
          (issues st + 1) (repo_counter st) (day_counter st).

(** Lines 121-131: the typed counters, once the histograms are updated. *)
Definition count_kind (st : stats) (typ ev : json) : result stats :=
  if eq_str typ "PushEvent" then
    payload <- getitem ev "payload" ;;
    size <- dict_get payload "size" (JInt 0) ;;
    n <- int_add (commits st) size ;;
    Ok (with_commits st n)
  else if eq_str typ "PullRequestEvent" then
    payload <- getitem ev "payload" ;;
    action <- dict_get payload "action" JNull ;;
    if eq_str action "opened" then Ok (incr_prs_opened st)
    else if eq_str action "closed" then
      pull_request <- dict_get payload "pull_request" (JDict []) ;;
      merged <- dict_get pull_request "merged" JNull ;;
      if truthy merged then Ok (incr_prs_merged st) else Ok st
    else Ok st
  else if eq_str typ "IssuesEvent" then
    payload <- getitem ev "payload" ;;
    action <- dict_get payload "action" JNull ;;
    if eq_str action "opened" then Ok (incr_issues st) else Ok st
  else Ok st.

(** Lines 115-131: the body of the loop on one event. *)
Definition analyze_event (st : stats) (ev : json) : result stats :=
  typ <- getitem ev "type" ;;
  repo_obj <- getitem ev "repo" ;;
  repo <- getitem repo_obj "name" ;;
  rc <- counter_incr repo (repo_counter st) ;;
  created <- getitem ev "created_at" ;;
  day <- slice10 created ;;
  dc <- counter_incr day (day_counter st) ;;
  count_kind (with_histograms st rc dc) typ ev.

Fixpoint analyze_loop (st : stats) (events : list json) : result stats :=
  match events with
  | [] => Ok st
  | ev :: rest => st' <- analyze_event st ev ;; analyze_loop st' rest
  end.

Definition analyze_events (events : list json) : result stats :=
  analyze_loop (init_stats events) events.

(** ** [analyze_languages]: [Counter(r["language"] for r in repos if
    r.get("language"))] *)
Fixpoint count_languages (c : counter) (repos : list json) : result counter :=
  match repos with
  | [] => Ok c
  | r :: rest =>
      language <- dict_get r "language" JNull ;;
      if truthy language then
        elem <- getitem r "language" ;;
        c' <- counter_incr elem c ;;
        count_languages c' rest
      else count_languages c rest
  end.

Definition analyze_languages (repos : list json) : result counter :=
  count_languages [] repos.

(** ** [render_dashboard]

    The console is the list of things handed to [rich], in order.  What
    [rich] does with them is not modelled: neither the layout, nor its
    refusal of a table cell that is not a string or of unbalanced markup,
    which in the code stops the printing after the blocks already out. *)

Inductive out_item : Type :=
| Rule (title : string)
| Header (username : string) (days : Z)
| Panel (style : string) (title : option string) (text : string)
| Summary (n_commits n_prs_opened n_prs_merged n_issues : Z)
          (busiest : option (key * Z))
| RepoTable (rows : list (nat * key * Z))
| LangTable (rows : list (key * Z))
| Line (text : string).

Definition empty_history : out_item :=
  Panel "yellow" (Some "Empty History")
        "No activity found in this period.
[dim]Note: GitHub API only provides public events from the last 90 days.[/dim]".

Definition caveat : out_item :=
  Line "
[dim]* GitHub only stores public events for 90 days. Results for older periods may be incomplete.[/dim]".

(** [enumerate(rows, 1)] *)
Fixpoint enumerate {A : Type} (i : nat) (rows : list A) : list (nat * A) :=
  match rows with
  | [] => []
  | r :: rows' => (i, r) :: enumerate (S i) rows'
  end.

(** [stats["day_counter"].most_common(1)[0]], under [if day_counter] *)
Definition busiest_day (st : stats) : option (key * Z) :=
  match day_counter st with
  | [] => None
  | _ :: _ => hd_error (most_common 1 (day_counter st))
  end.

Definition render_dashboard (username : string) (days : Z) (st : stats)
           (lang_stats : counter) : list out_item :=
  [Rule "GitHub Activity Report"; Header username days] ++
  if total_events st =? 0 then [empty_history]
  else
    [Summary (commits st) (prs_opened st) (prs_merged st) (issues st)
             (busiest_day st)] ++
    (match repo_counter st with
     | [] => []
     | _ :: _ =>
         [RepoTable (map (fun r => (fst r, fst (snd r), snd (snd r)))
                         (enumerate 1%nat (most_common 5 (repo_counter st))))]
     end) ++
    (match lang_stats with
     | [] => []
     | _ :: _ => [LangTable (most_common 10 lang_stats)]
     end) ++
    (if 90 <? days then [caveat] else []).

(** ** [main] *)

Inductive termination : Type :=
| Exited (code : Z)
| Uncaught (e : exn)
| Running.

Record run : Type := mkRun {
  console : list out_item;
  status : termination
}.

(** [error(msg)] *)
Definition error (msg : string) : run :=
  mkRun [Panel "bold red" None msg] (Exited 1).

Definition finish (r : result (list out_item)) : run :=
  match r with
  | Ok printed => mkRun printed (Exited 0)
  | Fatal msg => error msg
  | Raise e => mkRun [] (Uncaught e)
  | OutOfFuel => mkRun [] Running
  end.

Section Program.

Variable strptime : string -> option Z.

(** [int(value)]: [None] where Python raises [ValueError]. *)
Variable py_int : string -> option Z.

(** [None] stands for [argparse.ArgumentTypeError]. *)
Definition validate_days (value : string) : option Z :=
  match py_int value with
  | None => None
  | Some days => if days <=? 0 then None else Some days
  end.

Definition report (username : string) (days now : Z)
           (events_feed repos_feed : nat -> response) (fuel : nat)
  : result (list out_item) :=
  events <- fetch_events strptime events_feed now days fuel ;;
  repos <- fetch_repos repos_feed fuel ;;
  st <- analyze_events events ;;
  lang_stats <- analyze_languages repos ;;
  Ok (render_dashboard username days st lang_stats).

(** [token] is [os.getenv("GITHUB_TOKEN")]; [username] and [days_arg] are
    the values of the two required flags.  A rejected [--days] makes
    argparse write its usage message to stderr and exit with status 2. *)
Definition main (token : option string) (username days_arg : string)
           (now : Z) (events_feed repos_feed : nat -> response)
           (fuel : nat) : run :=
  match token with
  | None | Some "" => error "Missing GITHUB_TOKEN in .env file."
  | Some _ =>
      match validate_days days_arg with
      | None => mkRun [] (Exited 2)
      | Some days =>
          finish (report username days now events_feed repos_feed fuel)
      end
  end.

End Program.

(** ** The timestamp format, on ASCII strings

    [datetime.strptime] compiles ["%Y-%m-%dT%H:%M:%SZ"] to a regular
    expression matched case-insensitively against the whole string: four
    digits for the year, one or two for the other fields, the day also as a
    space and a digit, and the literals between them.  The date and time
    must then exist. *)
Module Iso8601.

Definition digit (c : ascii) : option Z :=
  let n := Z.of_nat (nat_of_ascii c) in
  if (48 <=? n) && (n <=? 57) then Some (n - 48) else None.

(** the longest run of digits at the head of [s]: how many, their value,
    and what follows *)
Fixpoint digits (s : string) (len : nat) (acc : Z) : nat * Z * string :=
  match s with
  | EmptyString => (len, acc, s)
  | String c s' =>
      match digit c with
      | Some d => digits s' (S len) (10 * acc + d)
      | None => (len, acc, s)
      end
  end.

(** one literal character of the format, in either case *)
Definition literal (upper lower : ascii) (s : string) : option string :=
  match s with
  | String c s' =>
      if Ascii.eqb c upper || Ascii.eqb c lower then Some s' else None
  | EmptyString => None
  end.

(** a field of one or two digits with value in [lo..hi] *)
Definition field (lo hi : Z) (s : string) : option (Z * string) :=
  let '(len, v, rest) := digits s 0%nat 0 in
  if (Nat.leb 1 len && Nat.leb len 2) && ((lo <=? v) && (v <=? hi))
  then Some (v, rest) else None.

Definition day_field (s : string) : option (Z * string) :=
  match s with
  | String " " s' =>
      let '(len, v, rest) := digits s' 0%nat 0 in
      if Nat.eqb len 1 && (1 <=? v) then Some (v, rest) else None
  | _ => field 1 31 s
  end.

Definition is_leap (y : Z) : bool :=
  ((y mod 4 =? 0) && negb (y mod 100 =? 0)) || (y mod 400 =? 0).

Definition days_in_month (y m : Z) : Z :=
  if m =? 2 then (if is_leap y then 29 else 28)
  else if (m =? 4) || (m =? 6) || (m =? 9) || (m =? 11) then 30
  else 31.

(** days from 1970-01-01 to the civil date *)
Definition days_from_civil (y m d : Z) : Z :=
  let y' := if m <=? 2 then y - 1 else y in
  let era := y' / 400 in
  let yoe := y' - era * 400 in
  let doy := (153 * (if 2 <? m then m - 3 else m + 9) + 2) / 5 + d - 1 in
  let doe := yoe * 365 + yoe / 4 - yoe / 100 + doy in
  era * 146097 + doe - 719468.

Definition strptime (s : string) : option Z :=
  let '(len, y, s) := digits s 0%nat 0 in
  if negb (Nat.eqb len 4) then None else
  match literal "-" "-" s with None => None | Some s =>
  match field 1 12 s with None => None | Some (m, s) =>
  match literal "-" "-" s with None => None | Some s =>
  match day_field s with None => None | Some (d, s) =>
  match literal "T" "t" s with None => None | Some s =>
  match field 0 23 s with None => None | Some (hh, s) =>
  match literal ":" ":" s with None => None | Some s =>
  match field 0 59 s with None => None | Some (mm, s) =>
  match literal ":" ":" s with None => None | Some s =>
  match field 0 61 s with None => None | Some (ss, s) =>
  match literal "Z" "z" s with None => None | Some s =>
  match s with
  | String _ _ => None
  | EmptyString =>
      if (1 <=? y) && (d <=? days_in_month y m) && (ss <=? 59)
      then Some ((days_from_civil y m d * 86400
                  + hh * 3600 + mm * 60 + ss) * 1000000)
      else None
  end end end end end end end end end end end end.

End Iso8601.


(** ** Vocabulary of the statements *)

(** The inclusion rule of the window: [created_at >= cutoff]. *)
Definition in_window (strptime : string -> option Z) (cutoff : Z)
           (ev : json) : bool :=
  match created_at strptime ev with
  | Ok t => cutoff <=? t
  | _ => false
  end.

(** an event whose timestamp can be read *)
Definition dated (strptime : string -> option Z) (ev : json) : Prop :=
  exists t, created_at strptime ev = Ok t.

Definition count_if (p : json -> bool) (events : list json) : Z :=
  Z.of_nat (List.length (filter p events)).

Definition is_kind (ev : json) (kind : string) : bool :=
  match getitem ev "type" with
  | Ok typ => eq_str typ kind
  | _ => false
  end.

(** [v.get(k)] read as a value, [None] where there is nothing to read *)
Definition field_of (v : json) (k : string) : json :=
  match v with
  | JDict fields => match lookup k fields with Some x => x | None => JNull end
  | _ => JNull
  end.

Definition action_is (ev : json) (action : string) : bool :=
  eq_str (field_of (field_of ev "payload") "action") action.

(** a pull-request event with action [opened] *)
Definition pr_opened (ev : json) : bool :=
  is_kind ev "PullRequestEvent" && action_is ev "opened".

(** the [merged] flag of the nested pull-request record *)
Definition merged_flag (ev : json) : json :=
  field_of (field_of (field_of ev "payload") "pull_request") "merged".

(** a pull-request event with action [closed] and a true [merged] flag *)
Definition pr_merged (ev : json) : bool :=
  is_kind ev "PullRequestEvent" && action_is ev "closed"
  && truthy (merged_flag ev).

(** The structural fields of an event: [type], [repo.name], [created_at]. *)
Definition has_structure (ev : json) : Prop :=
  exists fields typ repo name created,
    ev = JDict fields /\
    lookup "type" fields = Some typ /\
    lookup "repo" fields = Some (JDict repo) /\
    lookup "name" repo = Some name /\
    lookup "created_at" fields = Some created.

(** What one event contributes, whatever the statistics so far. *)
Record delta : Type := mkDelta {
  d_repo : key;
  d_day : key;
  d_commits : Z;
  d_opened : Z;
  d_merged : Z;
  d_issues : Z
}.

Definition zero_stats : stats := mkStats 0 0 0 0 0 [] [].

Definition first_key (c : counter) : key := hd KNone (map fst c).

Definition event_delta (ev : json) : result delta :=
  st <- analyze_event zero_stats ev ;;
  Ok (mkDelta (first_key (repo_counter st)) (first_key (day_counter st))
              (commits st) (prs_opened st) (prs_merged st) (issues st)).

Definition apply_delta (st : stats) (d : delta) : stats :=
  mkStats (total_events st) (commits st + d_commits d)
          (prs_opened st + d_opened d) (prs_merged st + d_merged d)
          (issues st + d_issues d)
          (incr (d_repo d) (repo_counter st))
          (incr (d_day d) (day_counter st)).

Fixpoint deltas (events : list json) : result (list delta) :=
  match events with
  | [] => Ok []
  | ev :: rest =>
      d <- event_delta ev ;; ds <- deltas rest ;; Ok (d :: ds)
  end.

Definition occurrences (k : key) (ks : list key) : Z :=
  Z.of_nat (List.length (filter (key_eqb k) ks)).

Definition total (ns : list Z) : Z := fold_right Z.add 0 ns.

Definition positive_counts (c : counter) : Prop :=
  forall k n, In (k, n) c -> 0 < n.

(** A response after which the repository loop asks for the next page: a
    list of at least 100 items. *)
Definition full_page (r : response) : Prop :=
  exists items,
    github_request r = Ok (JList items) /\ (100 <= List.length items)%nat.

(** A response after which the event loop asks for the next page: a list of
    at least 100 items whose last one is in the window. *)
Definition full_fresh_page (strptime : string -> option Z) (cutoff : Z)
           (r : response) : Prop :=
  exists items t,
    github_request r = Ok (JList items) /\
    (100 <= List.length items)%nat /\
    created_at strptime (last_item items) = Ok t /\ cutoff <= t.

(** The statuses the adapter maps to an error: 404, 401/403 and 5xx. *)
Definition fatal_status (status_code : Z) : bool :=
  (status_code =? 404) || (status_code =? 401) || (status_code =? 403)
  || ((500 <=? status_code) && (status_code <=? 599)).

(** a page body that ends the pagination: empty, or not a list *)
Definition end_of_data (data : json) : Prop :=
  truthy data = false \/ is_list data = false.

(** ** [int(value)] on plain decimal numerals

    An optional sign followed by ASCII digits, on which it is what [int]
    returns.  It is not [int] elsewhere: a numeral with blanks around it,
    with underscores between its digits or in other digits is answered with
    [None] here.  The statements take [int] as a parameter; this reading
    serves the sample runs only. *)
Definition decimal (s : string) : option Z :=
  let unsigned (s : string) : option Z :=
    let '(len, v, rest) := Iso8601.digits s 0%nat 0 in
    match len, rest with
    | S _, EmptyString => Some v
    | _, _ => None
    end in
  match s with
  | String "-" s' => option_map Z.opp (unsigned s')
  | String "+" s' => unsigned s'
  | _ => unsigned s
  end.

(** ** Sample data *)

Definition event (typ repo created : string) (payload : json) : json :=
  JDict [("type", JStr typ);
         ("repo", JDict [("name", JStr repo)]);
         ("created_at", JStr created);
         ("payload", payload)].

Definition push_event : json :=
  event "PushEvent" "octo/app" "2024-01-01T10:00:00Z"
        (JDict [("size", JInt 2)]).

Definition pr_opened_event : json :=
  event "PullRequestEvent" "octo/app" "2024-01-02T10:00:00Z"
        (JDict [("action", JStr "opened")]).

Definition issue_event : json :=
  event "IssuesEvent" "octo/lib" "2024-01-03T10:00:00Z"
        (JDict [("action", JStr "opened")]).

Definition pr_merged_event : json :=
  event "PullRequestEvent" "octo/lib" "2024-01-03T12:00:00Z"
        (JDict [("action", JStr "closed");
                ("pull_request", JDict [("merged", JBool true)])]).

Definition pr_closed_event : json :=
  event "PullRequestEvent" "octo/lib" "2024-01-03T13:00:00Z"
        (JDict [("action", JStr "closed");
                ("pull_request", JDict [("merged", JBool false)])]).

Definition watch_event (created : string) : json :=
  event "WatchEvent" "octo/app" created (JDict []).

(** an event with no [created_at] *)
Definition undated_event : json :=
  JDict [("type", JStr "PushEvent");
         ("repo", JDict [("name", JStr "octo/app")]);
         ("payload", JDict [])].

(** 2024-01-05T00:00:00Z, and five days before it *)
Definition scenario_now : Z := 1704412800000000.
Definition scenario_cutoff : Z := scenario_now - 5 * us_per_day.

(** newest first, the last one older than the window *)
Definition scenario_events : list json :=
  [pr_closed_event; pr_merged_event; issue_event; pr_opened_event;
   push_event; watch_event "2023-12-30T10:00:00Z"].

Definition ok_page (items : list json) : response :=
  Http 200 (Some (JList items)).

(** a feed with one page of items, then nothing *)
Definition one_page (items : list json) (page : nat) : response :=
  match page with
  | 1%nat => ok_page items
  | _ => ok_page []
  end.

(** pages of 100, 100, 100 and 40 events, the cutoff inside page 3 *)
Definition page_1 : list json := repeat (watch_event "2024-01-04T08:00:00Z") 100.
Definition page_2 : list json := repeat (watch_event "2024-01-02T08:00:00Z") 100.
Definition page_3 : list json :=
  repeat (watch_event "2023-12-31T08:00:00Z") 50
  ++ repeat (watch_event "2023-12-30T08:00:00Z") 50.
Definition page_4 : list json := repeat (watch_event "2023-12-29T08:00:00Z") 40.

Definition synthetic_feed (page : nat) : response :=
  match page with
  | 1%nat => ok_page page_1
  | 2%nat => ok_page page_2
  | 3%nat => ok_page page_3
  | 4%nat => ok_page page_4
  | _ => ok_page []
  end.

(** repository pages: two full ones, then a short one *)
Definition repo (name : string) (language : json) : json :=
  JDict [("name", JStr name); ("language", language)].

Definition repo_feed (page : nat) : response :=
  match page with
  | 1%nat => ok_page (repeat (repo "app" (JStr "Python")) 100)
  | 2%nat => ok_page (repeat (repo "lib" JNull) 100)
  | 3%nat => ok_page [repo "site" (JStr "Rust")]
  | _ => ok_page []
  end.

(** a server that answers every page with status 200 and no body *)
Definition empty_body_feed (page : nat) : response := Http 200 None.

(** a feed that fails on page 2 with the given response *)
Definition failing_feed (r : response) (page : nat) : response :=
  match page with
  | 1%nat => ok_page page_1
  | _ => r
  end.

(** a feed whose first page ends with an event that has no timestamp *)
Definition undated_feed (page : nat) : response :=
  match page with
  | 1%nat => ok_page [push_event; undated_event]
  | _ => ok_page []
  end.

(** two events on two different days *)
Definition two_days : list json :=
  [watch_event "2024-01-02T08:00:00Z"; watch_event "2024-01-01T08:00:00Z"].

(** ** Vocabulary of the further statements *)

(** an [int] operand read from a JSON value, [0] where there is none *)
Definition int_of (v : json) : Z :=
  match v with
  | JInt n => n
  | JBool b => if b then 1 else 0
  | _ => 0
  end.

(** the commits a push event reports: its [size], [0] when absent *)
Definition push_size (ev : json) : Z :=
  if is_kind ev "PushEvent"
  then int_of (field_of (field_of ev "payload") "size")
  else 0.

(** an issues event with action [opened] *)
Definition issue_opened (ev : json) : bool :=
  is_kind ev "IssuesEvent" && action_is ev "opened".

Definition key_of (v : json) : key :=
  match hash_key v with
  | Ok k => k
  | _ => KNone
  end.

(** the histogram keys of an event: [ev["repo"]["name"]] and
    [ev["created_at"][:10]] *)
Definition repo_key (ev : json) : key :=
  key_of (field_of (field_of ev "repo") "name").

Definition day_key (ev : json) : key :=
  match field_of ev "created_at" with
  | JStr s => KStr (substring 0 10 s)
  | _ => KNone
  end.

(** the sum of the counts of a histogram *)
Definition counted (c : counter) : Z := total (map snd c).

(** the three kinds the aggregator looks into *)
Definition known_kind (typ : json) : bool :=
  eq_str typ "PushEvent" || eq_str typ "PullRequestEvent"
  || eq_str typ "IssuesEvent".

(** a repository with a recorded language: [r.get("language")] is true *)
Definition has_language (r : json) : bool :=
  truthy (field_of r "language").

Definition language_key (r : json) : key :=
  key_of (field_of r "language").

Definition is_object (v : json) : Prop := exists fields, v = JDict fields.

(** entries in non-increasing order of count *)
Definition by_count_desc (x y : key * Z) : Prop := snd y <= snd x.

(** the entries shown by the rows of the repository table *)
Definition row_entries (rows : list (nat * key * Z)) : counter :=
  map (fun r => (snd (fst r), snd r)) rows.

Definition row_numbers (rows : list (nat * key * Z)) : list nat :=
  map (fun r => fst (fst r)) rows.

(** the items the server sent on a page, none when the body is not a list *)
Definition page_items (feed : nat -> response) (page : nat) : list json :=
  match github_request (feed page) with
  | Ok data => list_items data
  | _ => []
  end.

(** ** A server that holds a list of events

    The feed of the protocol: the events in pages of 100, in their order,
    and empty pages after the last one. *)
Definition paged (events : list json) (page : nat) : response :=
  ok_page (firstn 100 (skipn (100 * (page - 1)) events)).

(** [older] is not newer than [newer]; both timestamps can be read *)
Definition not_newer (strptime : string -> option Z) (newer older : json)
  : Prop :=
  exists t t',
    created_at strptime newer = Ok t /\
    created_at strptime older = Ok t' /\ t' <= t.

(** the ordering the API promises *)
Definition newest_first (strptime : string -> option Z)
           (events : list json) : Prop :=
  StronglySorted (not_newer strptime) events.

(** the keys of a list in the order of their first occurrence, after those
    of [acc]: the order in which a dict comes to hold them *)
Fixpoint seen (acc ks : list key) : list key :=
  match ks with
  | [] => acc
  | k :: ks' =>
      seen (if existsb (key_eqb k) acc then acc else acc ++ [k]) ks'
  end.

(** ** More sample data *)

(** the statistics of [two_days] *)
Definition two_days_stats : stats :=
  mkStats 2 0 0 0 0 [(KStr "octo/app", 2)]
          [(KStr "2024-01-02", 1); (KStr "2024-01-01", 1)].

Definition sample_repos : list json :=
  [repo "app" (JStr "Python"); repo "lib" JNull; repo "site" (JStr "Rust");
   repo "docs" (JStr ""); repo "cli" (JStr "Python");
   JDict [("name", JStr "bare")]].

(** a push whose [size] is [null] *)
Definition null_size_fields : list (string * json) :=
  [("type", JStr "PushEvent");
   ("repo", JDict [("name", JStr "octo/app")]);
   ("created_at", JStr "2024-01-01T10:00:00Z");
   ("payload", JDict [("size", JNull)])].

(** the answer to a request the API rejects *)
Definition rejected_feed (page : nat) : response :=
  Http 422 (Some (JDict [("message", JStr "Validation Failed")])).

(** a page with an event without timestamp in the middle *)
Definition gap_page : list json :=
  [issue_event; undated_event; push_event].

(** * Properties *)

(** ** The result monad *)

Lemma bind_ok {A B : Type} (m : result A) (k : A -> result B) (b : B) :
  bind m k = Ok b -> exists a, m = Ok a /\ k a = Ok b.
Proof.
  destruct m as [a| | |]; simpl; intros H; try discriminate.
  exists a; split; [reflexivity | exact H].
Qed.

Ltac inv_bind H :=
  let a := fresh "a" in
  let Ha := fresh "Ha" in
  apply bind_ok in H; destruct H as (a & Ha & H).

(** ** The window filter *)

Section WindowFilter.

Variable strptime : string -> option Z.
Variable cutoff : Z.

Lemma window_filter_is_filter (events filtered : list json) :
  window_filter strptime cutoff events = Ok filtered ->
  filtered = filter (in_window strptime cutoff) events.
Proof.
  revert filtered.
  induction events as [|ev rest IH]; simpl; intros filtered H.
  - now inversion H.
  - inv_bind H. inv_bind H. specialize (IH _ Ha0). subst a0.
    unfold in_window at 1. rewrite Ha. now inversion H.
Qed.

Lemma window_filter_total (events : list json) :
  Forall (dated strptime) events ->
  exists filtered, window_filter strptime cutoff events = Ok filtered.
Proof.
  induction 1 as [|ev rest [t Ht] _ [filtered IH]]; simpl.
  - now exists [].
  - rewrite Ht, IH. simpl. eauto.
Qed.

Lemma window_filter_dated (events filtered : list json) :
  window_filter strptime cutoff events = Ok filtered ->
  Forall (dated strptime) events.
Proof.
  revert filtered.
  induction events as [|ev rest IH]; simpl; intros filtered H.
  - constructor.
  - inv_bind H. inv_bind H. constructor; [now exists a | eauto].
Qed.

End WindowFilter.

(** C2.  On a list of events whose timestamps can all be read, the filter
    returns; and whenever it returns, its result is the sub-list of the
    events with [created_at >= cutoff]: every element of the result is in
    the window, every fetched event in the window is in the result, and the
    result keeps the order of the fetched list. *)
Theorem window_filter_exact (strptime : string -> option Z) (cutoff : Z)
        (events : list json) :
  (Forall (dated strptime) events ->
   exists filtered, window_filter strptime cutoff events = Ok filtered) /\
  (forall filtered,
      window_filter strptime cutoff events = Ok filtered ->
      (forall ev, In ev filtered ->
                  exists t, created_at strptime ev = Ok t /\ cutoff <= t) /\
      (forall ev t, In ev events -> created_at strptime ev = Ok t ->
                    cutoff <= t -> In ev filtered) /\
      filtered = filter (in_window strptime cutoff) events).
Proof.
  split; [apply window_filter_total|].
  intros filtered H.
  pose proof (window_filter_is_filter _ _ _ _ H) as ->.
  repeat split.
  - intros ev Hin. apply filter_In in Hin. destruct Hin as [_ Hw].
    unfold in_window in Hw.
    destruct (created_at strptime ev) as [t| | |]; try discriminate.
    exists t. split; [reflexivity | now apply Z.leb_le].
  - intros ev t Hin Ht Hle. apply filter_In. split; [exact Hin|].
    unfold in_window. rewrite Ht. now apply Z.leb_le.
Qed.

(** ** Event pagination *)

Section EventPages.

Variable strptime : string -> option Z.
Variable cutoff : Z.

Lemma events_page_end (data : json) (events : list json) :
  truthy data = false \/ is_list data = false ->
  events_page strptime cutoff data events = Ok (true, events).
Proof.
  unfold events_page. intros [-> | ->]; simpl; [reflexivity|].
  now rewrite orb_true_r.
Qed.

Lemma page_is_list (data : json) :
  truthy data = true -> is_list data = true ->
  exists x xs, data = JList (x :: xs).
Proof.
  destruct data as [| | | | [|x xs] |]; simpl; try discriminate.
  intros _ _. now exists x, xs.
Qed.

Lemma events_page_list (x : json) (xs events : list json) :
  events_page strptime cutoff (JList (x :: xs)) events =
  t <- created_at strptime (last_item (x :: xs)) ;;
  Ok ((t <? cutoff) || (Z.of_nat (List.length (x :: xs)) <? 100),
      events ++ x :: xs).
Proof.
  unfold events_page. cbn [truthy is_list negb orb list_items].
  destruct (created_at strptime (last_item (x :: xs))); simpl; try reflexivity.
  now destruct ((a <? cutoff) || _).
Qed.

Lemma events_page_stop (data : json) (events events' : list json)
      (stop : bool) :
  events_page strptime cutoff data events = Ok (stop, events') ->
  (stop = true <->
   (exists t, created_at strptime (last_item (list_items data)) = Ok t
              /\ t < cutoff)
   \/ Z.of_nat (List.length (list_items data)) < 100
   \/ truthy data = false \/ is_list data = false) /\
  (truthy data = true -> is_list data = true ->
   events' = events ++ list_items data) /\
  (truthy data = false \/ is_list data = false -> events' = events).
Proof.
  intros H.
  destruct (truthy data) eqn:Ht; [destruct (is_list data) eqn:Hl|].
  - destruct (page_is_list data Ht Hl) as (x & xs & ->).
    rewrite events_page_list in H. inv_bind H.
    inversion H; subst; clear H. cbn [list_items].
    split; [|split; [reflexivity | intros [?|?]; discriminate]].
    rewrite orb_true_iff, Z.ltb_lt, Z.ltb_lt. split.
    + intros [Hlt | Hlen]; [left; eauto | right; left; exact Hlen].
    + intros [(t & Ht' & Hlt) | [Hlen | [? | ?]]]; try discriminate.
      * left. congruence.
      * right. exact Hlen.
  - rewrite events_page_end in H by now right.
    inversion H; subst. repeat split; auto; discriminate.
  - rewrite events_page_end in H by now left.
    inversion H; subst. repeat split; auto; discriminate.
Qed.

(** a page that holds an event is appended whole, provided the timestamp
    of its last item can be read *)
Lemma events_page_whole (items events : list json) (ev : json) :
  In ev items ->
  dated strptime (last_item items) ->
  exists stop,
    events_page strptime cutoff (JList items) events
    = Ok (stop, events ++ items).
Proof.
  intros Hin [t Ht]. destruct items as [|x xs]; [destruct Hin|].
  rewrite events_page_list, Ht. simpl. eauto.
Qed.

Variable feed : nat -> response.

Lemma events_loop_unfold (fuel page : nat) (events : list json) :
  events_loop strptime feed cutoff (S fuel) page events =
  data <- github_request (feed page) ;;
  step <- events_page strptime cutoff data events ;;
  if fst step then Ok (snd step, page)
  else events_loop strptime feed cutoff fuel (S page) (snd step).
Proof.
  simpl. destruct (github_request (feed page)); simpl; try reflexivity.
  destruct (events_page strptime cutoff a events) as [[stop ev']| | |];
    reflexivity.
Qed.

Lemma events_loop_goes_on (fuel page : nat) (events items : list json)
      (t : Z) :
  github_request (feed page) = Ok (JList items) ->
  (100 <= List.length items)%nat ->
  created_at strptime (last_item items) = Ok t -> cutoff <= t ->
  events_loop strptime feed cutoff (S fuel) page events =
  events_loop strptime feed cutoff fuel (S page) (events ++ items).
Proof.
  intros Hreq Hlen Ht Hle. rewrite events_loop_unfold, Hreq. simpl.
  destruct items as [|x xs]; [simpl in Hlen; lia|].
  rewrite events_page_list, Ht. simpl.
  replace (t <? cutoff) with false by (symmetry; apply Z.ltb_ge; lia).
  replace (_ <? 100) with false
    by (symmetry; apply Z.ltb_ge; simpl in Hlen |- *; lia).
  reflexivity.
Qed.

Lemma events_loop_stops (fuel page : nat) (events items : list json)
      (t : Z) :
  github_request (feed page) = Ok (JList items) ->
  items <> [] ->
  created_at strptime (last_item items) = Ok t ->
  t < cutoff \/ (List.length items < 100)%nat ->
  events_loop strptime feed cutoff (S fuel) page events =
  Ok (events ++ items, page).
Proof.
  intros Hreq Hne Ht Hstop. rewrite events_loop_unfold, Hreq. simpl.
  destruct items as [|x xs]; [congruence|].
  rewrite events_page_list, Ht. simpl.
  replace ((t <? cutoff) || _) with true; [reflexivity|].
  symmetry. apply orb_true_iff. rewrite !Z.ltb_lt.
  destruct Hstop; [left | right]; simpl in *; lia.
Qed.

(** everything on a requested page is in what the loop returns *)
Lemma events_loop_keeps (fuel : nat) :
  forall (page : nat) (events fetched : list json) (n : nat),
    events_loop strptime feed cutoff fuel page events = Ok (fetched, n) ->
    (page <= n)%nat /\ incl events fetched /\
    forall p data, (page <= p <= n)%nat ->
                   github_request (feed p) = Ok data ->
                   incl (list_items data) fetched.
Proof.
  induction fuel as [|fuel IH]; intros page events fetched n H;
    [discriminate|].
  rewrite events_loop_unfold in H. inv_bind H. inv_bind H.
  destruct a0 as [stop events']. cbn [fst snd] in H.
  destruct (events_page_stop _ _ _ _ Ha0) as (_ & Hfull & Hend).
  assert (Hin : incl events events' /\ incl (list_items a) events').
  { destruct (truthy a) eqn:Ht; [destruct (is_list a) eqn:Hl|].
    - rewrite (Hfull eq_refl eq_refl).
      split; [apply incl_appl | apply incl_appr]; apply incl_refl.
    - rewrite (Hend (or_intror eq_refl)). split; [apply incl_refl|].
      destruct a; try discriminate; intros ? [].
    - rewrite (Hend (or_introl eq_refl)). split; [apply incl_refl|].
      destruct a as [| | | | [|? ?] |]; try discriminate; intros ? []. }
  destruct Hin as [Hacc Hpage].
  destruct stop.
  - inversion H; subst; clear H. split; [lia|]. split; [exact Hacc|].
    intros p data Hp Hreq. assert (p = n) by lia. subst p.
    rewrite Ha in Hreq. inversion Hreq; subst. exact Hpage.
  - destruct (IH _ _ _ _ H) as (Hle & Hincl & Hpages).
    split; [lia|]. split; [eapply incl_tran; eauto|].
    intros p data Hp Hreq.
    destruct (Nat.eq_dec p page) as [-> | Hne].
    + rewrite Ha in Hreq. inversion Hreq; subst.
      eapply incl_tran; eauto.
    + apply (Hpages p data); [lia | exact Hreq].
Qed.

(** the page the loop stopped on *)
Lemma events_loop_last (fuel : nat) :
  forall (page : nat) (events fetched : list json) (n : nat),
    events_loop strptime feed cutoff fuel page events = Ok (fetched, n) ->
    exists data gathered,
      github_request (feed n) = Ok data /\
      events_page strptime cutoff data gathered = Ok (true, fetched).
Proof.
  induction fuel as [|fuel IH]; intros page events fetched n H;
    [discriminate|].
  rewrite events_loop_unfold in H. inv_bind H. inv_bind H.
  destruct a0 as [stop events']. cbn [fst snd] in H.
  destruct stop.
  - inversion H; subst; clear H. now exists a, events.
  - apply (IH _ _ _ _ H).
Qed.

(** a full page stops the loop only if its last event is before the
    window, and then so is every event that is not newer *)
Lemma events_loop_stops_late (fuel n : nat) (fetched : list json)
      (data : json) :
  events_loop strptime feed cutoff fuel 1%nat [] = Ok (fetched, n) ->
  github_request (feed n) = Ok data ->
  (100 <= List.length (list_items data))%nat ->
  exists t,
    created_at strptime (last_item (list_items data)) = Ok t /\
    t < cutoff /\
    forall ev t', created_at strptime ev = Ok t' -> t' <= t ->
                  in_window strptime cutoff ev = false.
Proof.
  intros H Hreq Hlen.
  destruct (events_loop_last _ _ _ _ _ H) as (data' & gathered & Hreq' & Hp).
  rewrite Hreq in Hreq'. inversion Hreq'; subst data'; clear Hreq'.
  destruct (events_page_stop _ _ _ _ Hp) as ((Hstop & _) & _).
  destruct (Hstop eq_refl) as [(t & Ht & Hlt) | [Hshort | Hend]].
  - exists t. split; [exact Ht|]. split; [exact Hlt|].
    intros ev t' Hev Hle. unfold in_window. rewrite Hev.
    apply Z.leb_gt. lia.
  - lia.
  - exfalso.
    destruct data as [| | | | [|x xs] |]; simpl in Hlen, Hend;
      try lia; destruct Hend; discriminate.
Qed.

End EventPages.

(** C1.  On one page the event loop breaks exactly when the last item is
    strictly older than the cutoff, or the page has fewer than 100 items, or
    the page is empty or not a list; a non-empty list page is appended in
    full first, so a page holding an in-window event is never cut, and every
    page the loop requested is in its result; when the loop stops on a full
    page, the last event of that page is before the window, and so is every
    event that is not newer than it.  On a feed whose first two
    pages are full with their last event in the window and whose third page
    is full with its last event older than the cutoff, the loop returns the
    three pages after exactly three requests, whatever page 4 holds. *)
Theorem events_pagination_early_exit (strptime : string -> option Z)
        (cutoff : Z) :
  (forall data events stop events',
      events_page strptime cutoff data events = Ok (stop, events') ->
      (stop = true <->
       (exists t, created_at strptime (last_item (list_items data)) = Ok t
                  /\ t < cutoff)
       \/ Z.of_nat (List.length (list_items data)) < 100
       \/ truthy data = false \/ is_list data = false) /\
      (truthy data = true -> is_list data = true ->
       events' = events ++ list_items data) /\
      (truthy data = false \/ is_list data = false -> events' = events)) /\
  (forall items events ev,
      In ev items -> in_window strptime cutoff ev = true ->
      dated strptime (last_item items) ->
      exists stop,
        events_page strptime cutoff (JList items) events
        = Ok (stop, events ++ items)) /\
  (forall feed fuel fetched n,
      events_loop strptime feed cutoff fuel 1%nat [] = Ok (fetched, n) ->
      forall p data, (1 <= p <= n)%nat ->
                     github_request (feed p) = Ok data ->
                     incl (list_items data) fetched) /\
  (forall feed fuel fetched n data,
      events_loop strptime feed cutoff fuel 1%nat [] = Ok (fetched, n) ->
      github_request (feed n) = Ok data ->
      (100 <= List.length (list_items data))%nat ->
      exists t,
        created_at strptime (last_item (list_items data)) = Ok t /\
        t < cutoff /\
        forall ev t', created_at strptime ev = Ok t' -> t' <= t ->
                      in_window strptime cutoff ev = false) /\
  (forall feed page1 page2 page3 t1 t2 t3 fuel,
      github_request (feed 1%nat) = Ok (JList page1) ->
      github_request (feed 2%nat) = Ok (JList page2) ->
      github_request (feed 3%nat) = Ok (JList page3) ->
      List.length page1 = 100%nat ->
      List.length page2 = 100%nat ->
      List.length page3 = 100%nat ->
      created_at strptime (last_item page1) = Ok t1 -> cutoff <= t1 ->
      created_at strptime (last_item page2) = Ok t2 -> cutoff <= t2 ->
      created_at strptime (last_item page3) = Ok t3 -> t3 < cutoff ->
      (3 <= fuel)%nat ->
      events_loop strptime feed cutoff fuel 1%nat []
      = Ok (page1 ++ page2 ++ page3, 3%nat)).
Proof.
  split; [|split; [|split; [|split]]].
  - intros data events stop events'. apply events_page_stop.
  - intros items events ev Hin _ Hlast.
    now apply events_page_whole with (ev := ev).
  - intros feed fuel fetched n H p data Hp Hreq.
    destruct (events_loop_keeps _ _ _ _ _ _ _ _ H) as (_ & _ & Hpages).
    now apply (Hpages p data).
  - intros feed fuel fetched n data.
    apply events_loop_stops_late.
  - intros feed page1 page2 page3 t1 t2 t3 fuel
           R1 R2 R3 L1 L2 L3 T1 C1 T2 C2 T3 C3 Hfuel.
    destruct fuel as [|[|[|fuel]]]; try lia.
    rewrite (events_loop_goes_on _ _ _ _ _ _ page1 t1) by (auto; lia).
    rewrite (events_loop_goes_on _ _ _ _ _ _ page2 t2) by (auto; lia).
    rewrite (events_loop_stops _ _ _ _ _ _ page3 t3); auto.
    + now rewrite <- app_assoc.
    + intros ->. discriminate.
Qed.

(** ** Repository pagination *)

Section RepoPages.

Variable feed : nat -> response.

Lemma repos_page_stop (data : json) (repos : list json) :
  fst (repos_page data repos) = true <->
  Z.of_nat (List.length (list_items data)) < 100 \/ end_of_data data.
Proof.
  unfold repos_page, end_of_data.
  destruct (truthy data) eqn:Ht; [destruct (is_list data) eqn:Hl|]; simpl.
  - destruct (Z.ltb_spec (Z.of_nat (List.length (list_items data))) 100);
      simpl; split; auto; intros [? | [? | ?]]; try discriminate; lia.
  - split; auto.
  - split; auto.
Qed.

Lemma repos_page_end (data : json) (repos : list json) :
  end_of_data data -> repos_page data repos = (true, repos).
Proof.
  unfold repos_page. intros [-> | ->]; simpl; [reflexivity|].
  now rewrite orb_true_r.
Qed.

Lemma repos_page_short (data : json) (repos : list json) :
  Z.of_nat (List.length (list_items data)) < 100 ->
  exists repos', repos_page data repos = (true, repos').
Proof.
  intros Hlen. unfold repos_page.
  destruct (negb (truthy data) || negb (is_list data)); [eauto|].
  apply Z.ltb_lt in Hlen. rewrite Hlen. eauto.
Qed.

Lemma repos_loop_full (fuel page : nat) (repos : list json) :
  full_page (feed page) ->
  exists repos',
    repos_loop feed (S fuel) page repos
    = repos_loop feed fuel (S page) repos'.
Proof.
  intros (items & Hreq & Hlen). simpl. rewrite Hreq. simpl.
  unfold repos_page. destruct items as [|x xs]; [simpl in Hlen; lia|].
  cbn [truthy is_list negb orb list_items].
  replace (_ <? 100) with false
    by (symmetry; apply Z.ltb_ge; simpl in Hlen |- *; lia).
  eauto.
Qed.

Lemma repos_loop_reach (d : nat) :
  forall (page fuel : nat) (repos : list json),
    (forall p, (page <= p < page + d)%nat -> full_page (feed p)) ->
    exists repos',
      repos_loop feed (d + fuel) page repos
      = repos_loop feed fuel (page + d) repos'.
Proof.
  induction d as [|d IH]; intros page fuel repos Hfull.
  - exists repos. now rewrite Nat.add_0_r.
  - destruct (repos_loop_full (d + fuel) page repos) as [repos1 E1];
      [apply Hfull; lia|].
    destruct (IH (S page) fuel repos1) as [repos2 E2];
      [intros p Hp; apply Hfull; lia|].
    exists repos2. cbn [Nat.add]. rewrite E1, E2. f_equal. lia.
Qed.

Lemma repos_loop_last (fuel page : nat) (repos : list json) (data : json) :
  github_request (feed page) = Ok data ->
  Z.of_nat (List.length (list_items data)) < 100 \/ end_of_data data ->
  exists repos', repos_loop feed (S fuel) page repos = Ok (repos', page).
Proof.
  intros Hreq Hstop. simpl. rewrite Hreq. simpl.
  destruct Hstop as [Hshort | Hend].
  - destruct (repos_page_short data repos Hshort) as [repos' ->]. eauto.
  - rewrite (repos_page_end data repos Hend). eauto.
Qed.

End RepoPages.

(** C5.  The repository loop breaks on a page exactly when the page has
    fewer than 100 items or is empty or not a list; and on a feed whose
    pages before page [k] are full and whose page [k] is short, empty or not
    a list, the fetcher returns a list after [k] requests, for any fuel of
    at least [k]: the last page is the end of the data, not an error. *)
Theorem repos_pagination_terminates (feed : nat -> response) :
  (forall data repos,
      fst (repos_page data repos) = true <->
      Z.of_nat (List.length (list_items data)) < 100 \/ end_of_data data) /\
  (forall k data fuel,
      (1 <= k <= fuel)%nat ->
      (forall p, (1 <= p < k)%nat -> full_page (feed p)) ->
      github_request (feed k) = Ok data ->
      Z.of_nat (List.length (list_items data)) < 100 \/ end_of_data data ->
      exists repos,
        repos_loop feed fuel 1%nat [] = Ok (repos, k) /\
        fetch_repos feed fuel = Ok repos).
Proof.
  split; [apply repos_page_stop|].
  intros k data fuel Hk Hfull Hreq Hstop.
  destruct (repos_loop_reach feed (k - 1) 1%nat (fuel - (k - 1)) [])
    as [repos1 E1]; [intros p Hp; apply Hfull; lia|].
  replace (k - 1 + (fuel - (k - 1)))%nat with fuel in E1 by lia.
  replace (1 + (k - 1))%nat with k in E1 by lia.
  destruct (fuel - (k - 1))%nat as [|fuel'] eqn:Hf; [lia|].
  destruct (repos_loop_last feed fuel' k repos1 data Hreq Hstop)
    as [repos E2].
  exists repos. unfold fetch_repos. rewrite E1, E2. now split.
Qed.

(** ** Reaching a page, and failing there *)

Section EventFeed.

Variable strptime : string -> option Z.
Variable cutoff : Z.
Variable feed : nat -> response.

Lemma events_loop_reach (d : nat) :
  forall (page fuel : nat) (events : list json),
    (forall p, (page <= p < page + d)%nat ->
               full_fresh_page strptime cutoff (feed p)) ->
    exists events',
      events_loop strptime feed cutoff (d + fuel) page events
      = events_loop strptime feed cutoff fuel (page + d) events'.
Proof.
  induction d as [|d IH]; intros page fuel events Hfull.
  - exists events. now rewrite Nat.add_0_r.
  - destruct (Hfull page) as (items & t & Hreq & Hlen & Ht & Hle); [lia|].
    destruct (IH (S page) fuel (events ++ items)) as [events2 E2];
      [intros p Hp; apply Hfull; lia|].
    exists events2. cbn [Nat.add].
    rewrite (events_loop_goes_on _ _ _ _ _ _ items t) by assumption.
    rewrite E2. f_equal. lia.
Qed.

(** the loop gets to page [k] with the fuel it needs there *)
Lemma events_loop_at (k fuel : nat) :
  (1 <= k <= fuel)%nat ->
  (forall p, (1 <= p < k)%nat -> full_fresh_page strptime cutoff (feed p)) ->
  exists fuel' events,
    events_loop strptime feed cutoff fuel 1%nat []
    = events_loop strptime feed cutoff (S fuel') k events.
Proof.
  intros Hk Hfull.
  destruct (events_loop_reach (k - 1) 1%nat (S (fuel - k)) [])
    as [events E]; [intros p Hp; apply Hfull; lia|].
  exists (fuel - k)%nat, events.
  replace (k - 1 + S (fuel - k))%nat with fuel in E by lia.
  replace (1 + (k - 1))%nat with k in E by lia.
  exact E.
Qed.

Lemma events_loop_fatal (fuel page : nat) (events : list json)
      (msg : string) :
  github_request (feed page) = Fatal msg ->
  events_loop strptime feed cutoff (S fuel) page events = Fatal msg.
Proof. intros H. simpl. now rewrite H. Qed.

Lemma events_page_raises (x : json) (xs events : list json) (e : exn) :
  created_at strptime (last_item (x :: xs)) = Raise e ->
  events_page strptime cutoff (JList (x :: xs)) events = Raise e.
Proof. intros H. now rewrite events_page_list, H. Qed.

Lemma events_loop_raises (fuel page : nat) (x : json)
      (xs events : list json) (e : exn) :
  github_request (feed page) = Ok (JList (x :: xs)) ->
  created_at strptime (last_item (x :: xs)) = Raise e ->
  events_loop strptime feed cutoff (S fuel) page events = Raise e.
Proof.
  intros Hreq H. rewrite events_loop_unfold, Hreq. simpl.
  now rewrite (events_page_raises _ _ _ _ H).
Qed.

Lemma events_loop_end (fuel page : nat) (events : list json)
      (data : json) :
  github_request (feed page) = Ok data ->
  end_of_data data ->
  events_loop strptime feed cutoff (S fuel) page events
  = Ok (events, page).
Proof.
  intros Hreq Hend. rewrite events_loop_unfold, Hreq. simpl.
  now rewrite (events_page_end _ _ _ _ Hend).
Qed.

End EventFeed.

Lemma created_at_missing (strptime : string -> option Z)
      (fields : list (string * json)) :
  lookup "created_at" fields = None ->
  created_at strptime (JDict fields) = Raise (KeyError "created_at").
Proof. intros H. unfold created_at. simpl. now rewrite H. Qed.

Lemma created_at_unreadable (strptime : string -> option Z)
      (fields : list (string * json)) (s : string) :
  lookup "created_at" fields = Some (JStr s) ->
  strptime s = None ->
  created_at strptime (JDict fields) = Raise ValueError.
Proof. intros H Hs. unfold created_at. simpl. rewrite H. simpl. now rewrite Hs. Qed.

(** C9.  On a non-empty list page the event loop reads the timestamp of the
    last item before anything else: if that item has no [created_at] key
    the fetcher raises [KeyError], if its timestamp does not match the
    format it raises [ValueError], however short the page is; only an empty
    or non-list page ends the pagination without being inspected. *)
Theorem malformed_last_event_raises (strptime : string -> option Z)
        (feed : nat -> response) (now days cutoff : Z) (fuel k : nat)
        (x : json) (xs : list json) (fields : list (string * json)) :
  compute_cutoff now days = Ok cutoff ->
  (1 <= k <= fuel)%nat ->
  (forall p, (1 <= p < k)%nat -> full_fresh_page strptime cutoff (feed p)) ->
  github_request (feed k) = Ok (JList (x :: xs)) ->
  last_item (x :: xs) = JDict fields ->
  (lookup "created_at" fields = None ->
   (forall events,
       events_page strptime cutoff (JList (x :: xs)) events
       = Raise (KeyError "created_at")) /\
   fetch_events strptime feed now days fuel = Raise (KeyError "created_at"))
  /\
  (forall s,
      lookup "created_at" fields = Some (JStr s) -> strptime s = None ->
      (forall events,
          events_page strptime cutoff (JList (x :: xs)) events
          = Raise ValueError) /\
      fetch_events strptime feed now days fuel = Raise ValueError)
  /\
  (forall data events,
      end_of_data data ->
      events_page strptime cutoff data events = Ok (true, events)).
Proof.
  intros Hcut Hk Hfull Hreq Hlast.
  destruct (events_loop_at strptime cutoff feed k fuel Hk Hfull)
    as (fuel' & events0 & E).
  assert (Hfetch : forall e,
             created_at strptime (last_item (x :: xs)) = Raise e ->
             fetch_events strptime feed now days fuel = Raise e).
  { intros e He. unfold fetch_events. rewrite Hcut. simpl. rewrite E.
    now rewrite (events_loop_raises _ _ _ _ _ x xs events0 e Hreq He). }
  split; [|split].
  - intros Hmiss.
    assert (He := created_at_missing strptime fields Hmiss).
    rewrite <- Hlast in He. split; [|now apply Hfetch].
    intros events. now apply events_page_raises.
  - intros s Hs Hbad.
    assert (He := created_at_unreadable strptime fields s Hs Hbad).
    rewrite <- Hlast in He. split; [|now apply Hfetch].
    intros events. now apply events_page_raises.
  - intros data events Hend. now apply events_page_end.
Qed.

(** ** Fatal responses *)

Lemma github_request_fatal_status (status_code : Z) (body : option json) :
  fatal_status status_code = true ->
  github_request (Http status_code body) =
  Fatal (if status_code =? 404 then "User not found."
         else if (status_code =? 401) || (status_code =? 403)
              then "Authentication failed or API rate limit exceeded."
              else "GitHub server error. Try again later.").
Proof.
  unfold fatal_status, github_request. intros H.
  destruct (status_code =? 404); [reflexivity|].
  destruct (status_code =? 401); [reflexivity|].
  destruct (status_code =? 403); [reflexivity|].
  simpl in H |- *. apply andb_prop in H. destruct H as [-> _]. reflexivity.
Qed.

Lemma github_request_passes (status_code : Z) (data : json) :
  fatal_status status_code = false -> status_code < 500 ->
  github_request (Http status_code (Some data)) = Ok data.
Proof.
  unfold fatal_status, github_request. intros H Hlt.
  destruct (status_code =? 404); [discriminate|].
  destruct (status_code =? 401); [discriminate|].
  destruct (status_code =? 403); [discriminate|].
  simpl. replace (500 <=? status_code) with false; [reflexivity|].
  symmetry. apply Z.leb_gt. exact Hlt.
Qed.

Lemma github_request_undecodable (status_code : Z) :
  fatal_status status_code = false -> status_code < 500 ->
  github_request (Http status_code None) = Raise JSONDecodeError.
Proof.
  unfold fatal_status, github_request. intros H Hlt.
  destruct (status_code =? 404); [discriminate|].
  destruct (status_code =? 401); [discriminate|].
  destruct (status_code =? 403); [discriminate|].
  simpl. replace (500 <=? status_code) with false; [reflexivity|].
  symmetry. apply Z.leb_gt. exact Hlt.
Qed.

Lemma main_runs (strptime py_int : string -> option Z)
      (token username days_arg : string) (days now : Z)
      (events_feed repos_feed : nat -> response) (fuel : nat) :
  token <> "" ->
  validate_days py_int days_arg = Some days ->
  main strptime py_int (Some token) username days_arg now
       events_feed repos_feed fuel
  = finish (report strptime username days now events_feed repos_feed fuel).
Proof.
  intros Htok Hdays. unfold main. rewrite Hdays.
  destruct token; [congruence | reflexivity].
Qed.

(** C8, as the code has it.  A 404, 401, 403 or 5xx status and a transport
    failure make [github_request] call [error]; when the request that meets
    one is a page of the event feed or of the repository feed that the run
    gets to, the whole run prints the one red panel and exits with status 1,
    with nothing of the report on the console.  A body that decodes to a
    JSON value that is empty or not a list, under a status that is not an
    error, ends the pagination with the pages gathered so far.  A body that
    does not decode at all is no such signal: [r.json()] raises
    [JSONDecodeError] in either loop. *)
Theorem fatal_responses_abort (strptime py_int : string -> option Z)
        (token username days_arg : string) (days now cutoff : Z)
        (events_feed repos_feed : nat -> response) (fuel k : nat) :
  token <> "" ->
  validate_days py_int days_arg = Some days ->
  compute_cutoff now days = Ok cutoff ->
  (1 <= k <= fuel)%nat ->
  (forall status_code body,
      fatal_status status_code = true ->
      github_request (Http status_code body) =
      Fatal (if status_code =? 404 then "User not found."
             else if (status_code =? 401) || (status_code =? 403)
                  then "Authentication failed or API rate limit exceeded."
                  else "GitHub server error. Try again later.")) /\
  (forall e,
      github_request (Transport e)
      = Fatal (String.append "Network error: " e)) /\
  (forall msg,
      (forall p, (1 <= p < k)%nat ->
                 full_fresh_page strptime cutoff (events_feed p)) ->
      github_request (events_feed k) = Fatal msg ->
      main strptime py_int (Some token) username days_arg now
           events_feed repos_feed fuel
      = mkRun [Panel "bold red" None msg] (Exited 1)) /\
  (forall msg events,
      fetch_events strptime events_feed now days fuel = Ok events ->
      (forall p, (1 <= p < k)%nat -> full_page (repos_feed p)) ->
      github_request (repos_feed k) = Fatal msg ->
      main strptime py_int (Some token) username days_arg now
           events_feed repos_feed fuel
      = mkRun [Panel "bold red" None msg] (Exited 1)) /\
  (forall status_code data page fuel' gathered,
      fatal_status status_code = false -> status_code < 500 ->
      end_of_data data ->
      (events_feed page = Http status_code (Some data) ->
       events_loop strptime events_feed cutoff (S fuel') page gathered
       = Ok (gathered, page)) /\
      (repos_feed page = Http status_code (Some data) ->
       repos_loop repos_feed (S fuel') page gathered
       = Ok (gathered, page))) /\
  (forall status_code page fuel' gathered,
      fatal_status status_code = false -> status_code < 500 ->
      (events_feed page = Http status_code None ->
       events_loop strptime events_feed cutoff (S fuel') page gathered
       = Raise JSONDecodeError) /\
      (repos_feed page = Http status_code None ->
       repos_loop repos_feed (S fuel') page gathered
       = Raise JSONDecodeError)).
Proof.
  intros Htok Hdays Hcut Hk.
  split; [|split; [|split; [|split; [|split]]]].
  - intros status_code body H. now apply github_request_fatal_status.
  - intros e. reflexivity.
  - intros msg Hfull Hreq.
    rewrite (main_runs _ _ _ _ _ days) by assumption.
    destruct (events_loop_at strptime cutoff events_feed k fuel Hk Hfull)
      as (fuel' & events0 & E).
    unfold report, fetch_events. rewrite Hcut. simpl. rewrite E.
    now rewrite (events_loop_fatal _ _ _ _ _ _ msg Hreq).
  - intros msg events Hev Hfull Hreq.
    rewrite (main_runs _ _ _ _ _ days) by assumption.
    unfold report. rewrite Hev. simpl.
    destruct (repos_loop_reach repos_feed (k - 1) 1%nat (S (fuel - k)) [])
      as [repos1 E1]; [intros p Hp; apply Hfull; lia|].
    replace (k - 1 + S (fuel - k))%nat with fuel in E1 by lia.
    replace (1 + (k - 1))%nat with k in E1 by lia.
    unfold fetch_repos. rewrite E1. simpl. now rewrite Hreq.
  - intros status_code data page fuel' gathered Hst Hlt Hend. split.
    + intros Hfeed. apply events_loop_end with (data := data); [|exact Hend].
      rewrite Hfeed. now apply github_request_passes.
    + intros Hfeed. simpl. rewrite Hfeed.
      rewrite github_request_passes by assumption. simpl.
      now rewrite (repos_page_end data gathered Hend).
  - intros status_code page fuel' gathered Hst Hlt. split.
    + intros Hfeed. rewrite events_loop_unfold, Hfeed.
      now rewrite github_request_undecodable.
    + intros Hfeed. simpl. rewrite Hfeed.
      now rewrite github_request_undecodable.
Qed.

(** ** The aggregator, one event at a time *)

Lemma key_eqb_eq (a b : key) : key_eqb a b = true <-> a = b.
Proof.
  destruct a, b; simpl; split; intros H; try discriminate; try reflexivity.
  - apply Z.eqb_eq in H. now subst.
  - inversion H. apply Z.eqb_refl.
  - apply String.eqb_eq in H. now subst.
  - inversion H. apply String.eqb_refl.
Qed.

Lemma key_eqb_refl (a : key) : key_eqb a a = true.
Proof. now apply key_eqb_eq. Qed.

Ltac split_result :=
  match goal with
  | |- context [getitem ?v ?k] =>
      let E := fresh "E" in destruct (getitem v k) eqn:E; cbn [bind]
  | |- context [dict_get ?v ?k ?d] =>
      let E := fresh "E" in destruct (dict_get v k d) eqn:E; cbn [bind]
  | |- context [hash_key ?v] =>
      let E := fresh "E" in destruct (hash_key v) eqn:E; cbn [bind]
  | |- context [slice10 ?v] =>
      let E := fresh "E" in destruct (slice10 v) eqn:E; cbn [bind]
  | |- context [if eq_str ?v ?s then _ else _] =>
      let E := fresh "E" in destruct (eq_str v s) eqn:E
  | |- context [if truthy ?v then _ else _] =>
      let E := fresh "E" in destruct (truthy v) eqn:E
  end.

(** What an event does to the statistics does not depend on them. *)
Lemma analyze_event_delta (st : stats) (ev : json) :
  analyze_event st ev = d <- event_delta ev ;; Ok (apply_delta st d).
Proof.
  unfold event_delta, analyze_event, count_kind, counter_incr.
  repeat (split_result; try reflexivity);
    unfold int_add;
    repeat match goal with
           | |- context [match ?v with JNull => _ | _ => _ end] => destruct v
           end;
    cbn; try reflexivity;
    unfold apply_delta, with_histograms, with_commits, incr_prs_opened,
      incr_prs_merged, incr_issues, first_key; cbn;
    f_equal; f_equal; lia.
Qed.

Lemma analyze_loop_deltas (events : list json) :
  forall st,
    analyze_loop st events
    = ds <- deltas events ;; Ok (fold_left apply_delta ds st).
Proof.
  induction events as [|ev rest IH]; intros st; simpl; [reflexivity|].
  rewrite analyze_event_delta.
  destruct (event_delta ev) as [d| | |]; simpl; try reflexivity.
  rewrite IH. destruct (deltas rest); reflexivity.
Qed.

Lemma deltas_length (events : list json) :
  forall ds, deltas events = Ok ds -> List.length ds = List.length events.
Proof.
  induction events as [|ev rest IH]; simpl; intros ds H.
  - now inversion H.
  - inv_bind H. inv_bind H. inversion H; subst. simpl. f_equal. eauto.
Qed.

(** *** The scalar counters are sums over the events *)

Lemma fold_scalars (ds : list delta) :
  forall st,
    let st' := fold_left apply_delta ds st in
    total_events st' = total_events st /\
    commits st' = commits st + total (map d_commits ds) /\
    prs_opened st' = prs_opened st + total (map d_opened ds) /\
    prs_merged st' = prs_merged st + total (map d_merged ds) /\
    issues st' = issues st + total (map d_issues ds).
Proof.
  induction ds as [|d ds IH]; intros st; simpl.
  - repeat split; lia.
  - destruct (IH (apply_delta st d)) as (H1 & H2 & H3 & H4 & H5).
    simpl in *. rewrite H1, H2, H3, H4, H5. repeat split; lia.
Qed.

(** *** The histograms count occurrences *)

Lemma count_of_incr (k k' : key) (c : counter) :
  count_of k (incr k' c)
  = count_of k c + (if key_eqb k k' then 1 else 0).
Proof.
  induction c as [|[k0 n] c IH]; simpl.
  - destruct (key_eqb k k'); reflexivity.
  - destruct (key_eqb k' k0) eqn:E; simpl.
    + apply key_eqb_eq in E. subst k0.
      destruct (key_eqb k k'); lia.
    + destruct (key_eqb k k0) eqn:E0; [|exact IH].
      apply key_eqb_eq in E0. subst k0.
      destruct (key_eqb k k') eqn:E1; [|lia].
      apply key_eqb_eq in E1. subst k'. rewrite key_eqb_refl in E.
      discriminate.
Qed.

Lemma occurrences_cons (k k' : key) (ks : list key) :
  occurrences k (k' :: ks)
  = (if key_eqb k k' then 1 else 0) + occurrences k ks.
Proof.
  unfold occurrences. cbn [filter]. destruct (key_eqb k k'); [|lia].
  cbn [List.length]. rewrite Nat2Z.inj_succ. lia.
Qed.

Lemma fold_histograms (ds : list delta) :
  forall st k,
    let st' := fold_left apply_delta ds st in
    count_of k (repo_counter st')
    = count_of k (repo_counter st) + occurrences k (map d_repo ds) /\
    count_of k (day_counter st')
    = count_of k (day_counter st) + occurrences k (map d_day ds).
Proof.
  induction ds as [|d ds IH]; intros st k; simpl.
  - unfold occurrences. simpl. split; lia.
  - destruct (IH (apply_delta st d) k) as [H1 H2]. simpl in H1, H2.
    rewrite H1, H2, !count_of_incr, !occurrences_cons. split; lia.
Qed.

(** *** Entries are positive and keys are not repeated *)

Lemma incr_positive (k : key) (c : counter) :
  positive_counts c -> positive_counts (incr k c).
Proof.
  unfold positive_counts.
  induction c as [|[k0 n] c IH]; simpl; intros Hpos k1 n1 Hin.
  - destruct Hin as [Hin | []]. inversion Hin. lia.
  - destruct (key_eqb k k0).
    + destruct Hin as [Hin | Hin].
      * inversion Hin; subst. specialize (Hpos k1 n (or_introl eq_refl)). lia.
      * apply (Hpos k1 n1). now right.
    + destruct Hin as [Hin | Hin].
      * apply (Hpos k1 n1). now left.
      * apply (IH (fun a b H => Hpos a b (or_intror H)) k1 n1 Hin).
Qed.

Lemma incr_keys (k : key) (c : counter) :
  map fst (incr k c)
  = if existsb (key_eqb k) (map fst c) then map fst c
    else map fst c ++ [k].
Proof.
  induction c as [|[k0 n] c IH]; simpl; [reflexivity|].
  destruct (key_eqb k k0); simpl; [reflexivity|].
  rewrite IH. destruct (existsb (key_eqb k) (map fst c)); reflexivity.
Qed.

Lemma incr_nodup (k : key) (c : counter) :
  NoDup (map fst c) -> NoDup (map fst (incr k c)).
Proof.
  intros H. rewrite incr_keys.
  destruct (existsb (key_eqb k) (map fst c)) eqn:E; [exact H|].
  apply NoDup_app; [exact H | repeat constructor; intros [] |].
  intros x Hx [Heq | []]. subst x.
  assert (existsb (key_eqb k) (map fst c) = true); [|congruence].
  apply existsb_exists. exists k. split; [exact Hx | apply key_eqb_refl].
Qed.

Lemma fold_invariants (ds : list delta) :
  forall st,
    positive_counts (repo_counter st) -> positive_counts (day_counter st) ->
    NoDup (map fst (repo_counter st)) -> NoDup (map fst (day_counter st)) ->
    let st' := fold_left apply_delta ds st in
    positive_counts (repo_counter st') /\
    positive_counts (day_counter st') /\
    NoDup (map fst (repo_counter st')) /\
    NoDup (map fst (day_counter st')).
Proof.
  induction ds as [|d ds IH]; intros st Hr Hd Hnr Hnd; simpl; [auto|].
  apply IH; simpl; auto using incr_positive, incr_nodup.
Qed.

Lemma positive_nil : positive_counts [].
Proof. intros k n []. Qed.

(** what [analyze_events] returns, in terms of the contributions *)
Lemma analyze_events_deltas (events : list json) (st : stats) :
  analyze_events events = Ok st ->
  exists ds,
    deltas events = Ok ds /\
    st = fold_left apply_delta ds (init_stats events).
Proof.
  unfold analyze_events. rewrite analyze_loop_deltas. intros H.
  inv_bind H. inversion H; subst. eauto.
Qed.

Lemma analyze_events_invariants (events : list json) (st : stats) :
  analyze_events events = Ok st ->
  total_events st = Z.of_nat (List.length events) /\
  positive_counts (repo_counter st) /\
  positive_counts (day_counter st) /\
  NoDup (map fst (repo_counter st)) /\
  NoDup (map fst (day_counter st)).
Proof.
  intros H. destruct (analyze_events_deltas _ _ H) as (ds & _ & ->).
  destruct (fold_scalars ds (init_stats events)) as (H1 & _).
  split; [exact H1|].
  apply fold_invariants; simpl; try apply positive_nil; constructor.
Qed.

(** *** What one event adds to the pull-request counters *)

Ltac crush_event H :=
  repeat (simpl in H;
          match type of H with
          | context [lookup ?k ?f] =>
              let E := fresh "E" in destruct (lookup k f) eqn:E
          | context [hash_key ?v] =>
              let E := fresh "E" in destruct (hash_key v) eqn:E
          | context [slice10 ?v] =>
              let E := fresh "E" in destruct (slice10 v) eqn:E
          | context [eq_str ?v ?s] =>
              let E := fresh "E" in destruct (eq_str v s) eqn:E
          | context [truthy ?v] =>
              let E := fresh "E" in destruct (truthy v) eqn:E
          | context [int_add ?n ?v] =>
              let E := fresh "E" in destruct (int_add n v) eqn:E
          | context [match ?v with JNull => _ | _ => _ end] =>
              is_var v; destruct v
          end; try discriminate H).

Lemma eq_str_true (v : json) (s : string) :
  eq_str v s = true -> v = JStr s.
Proof.
  destruct v; simpl; try discriminate.
  intros H. apply String.eqb_eq in H. now subst.
Qed.

Ltac name_strings :=
  repeat match goal with
         | E : eq_str ?v ?s = true |- _ =>
             apply eq_str_true in E; try subst v
         end.

Lemma event_delta_prs (ev : json) (d : delta) :
  event_delta ev = Ok d ->
  d_opened d = (if pr_opened ev then 1 else 0) /\
  d_merged d = (if pr_merged ev then 1 else 0).
Proof.
  intros H.
  unfold event_delta, analyze_event, count_kind, counter_incr, getitem,
    dict_get in H.
  destruct ev as [| | | | |fields]; try discriminate H.
  unfold pr_opened, pr_merged, is_kind, action_is, merged_flag, field_of,
    getitem.
  crush_event H; inversion H; subst; clear H; name_strings; cbn;
    repeat match goal with
           | E : ?x = _ |- context [?x] => rewrite E
           end; cbn; auto.
Qed.

Lemma count_if_cons (p : json -> bool) (ev : json) (events : list json) :
  count_if p (ev :: events) = (if p ev then 1 else 0) + count_if p events.
Proof.
  unfold count_if. cbn [filter]. destruct (p ev); [|lia].
  cbn [List.length]. rewrite Nat2Z.inj_succ. lia.
Qed.

Lemma deltas_prs (events : list json) :
  forall ds,
    deltas events = Ok ds ->
    total (map d_opened ds) = count_if pr_opened events /\
    total (map d_merged ds) = count_if pr_merged events.
Proof.
  induction events as [|ev rest IH]; simpl; intros ds H.
  - inversion H. now split.
  - inv_bind H. inv_bind H. inversion H; subst; clear H.
    destruct (IH _ Ha0) as [H1 H2].
    destruct (event_delta_prs _ _ Ha) as [H3 H4].
    simpl. rewrite !count_if_cons, H1, H2, H3, H4. now split.
Qed.

Lemma analyze_event_prs (st st' : stats) (ev : json) :
  analyze_event st ev = Ok st' ->
  prs_opened st' = prs_opened st + (if pr_opened ev then 1 else 0) /\
  prs_merged st' = prs_merged st + (if pr_merged ev then 1 else 0).
Proof.
  rewrite analyze_event_delta. intros H. inv_bind H.
  inversion H; subst; clear H.
  destruct (event_delta_prs _ _ Ha) as [H1 H2]. simpl.
  now rewrite H1, H2.
Qed.

(** C3.  After aggregation [prs_opened] is the number of pull-request
    events with action [opened] and [prs_merged] the number of pull-request
    events with action [closed] whose nested record has a true [merged];
    event by event, an opened one adds one to [prs_opened] only, a closed
    and merged one adds one to [prs_merged] only, and a closed one whose
    [merged] is false or missing adds to neither. *)
Theorem pr_counters :
  (forall events st,
      analyze_events events = Ok st ->
      prs_opened st = count_if pr_opened events /\
      prs_merged st = count_if pr_merged events) /\
  (forall st ev st',
      analyze_event st ev = Ok st' ->
      prs_opened st' = prs_opened st + (if pr_opened ev then 1 else 0) /\
      prs_merged st' = prs_merged st + (if pr_merged ev then 1 else 0)) /\
  (forall st ev st',
      analyze_event st ev = Ok st' ->
      is_kind ev "PullRequestEvent" = true ->
      (action_is ev "opened" = true ->
       prs_opened st' = prs_opened st + 1 /\
       prs_merged st' = prs_merged st) /\
      (action_is ev "closed" = true -> merged_flag ev = JBool true ->
       prs_opened st' = prs_opened st /\
       prs_merged st' = prs_merged st + 1) /\
      (action_is ev "closed" = true ->
       merged_flag ev = JBool false \/ merged_flag ev = JNull ->
       prs_opened st' = prs_opened st /\
       prs_merged st' = prs_merged st)).
Proof.
  split; [|split].
  - intros events st H. unfold analyze_events in H.
    rewrite analyze_loop_deltas in H. inv_bind H.
    inversion H; subst; clear H.
    destruct (fold_scalars a (init_stats events)) as (_ & _ & H3 & H4 & _).
    destruct (deltas_prs _ _ Ha) as [H1 H2].
    rewrite H3, H4, H1, H2. simpl. now split.
  - intros st ev st'. apply analyze_event_prs.
  - intros st ev st' H Hkind.
    destruct (analyze_event_prs _ _ _ H) as [H1 H2].
    unfold pr_opened, pr_merged in H1, H2. rewrite Hkind in H1, H2.
    unfold action_is in *.
    split; [|split].
    + intros Ha. apply eq_str_true in Ha. rewrite Ha in H1, H2.
      simpl in H1, H2. split; lia.
    + intros Ha Hm. apply eq_str_true in Ha. rewrite Ha in H1, H2.
      rewrite Hm in H2. simpl in H1, H2. split; lia.
    + intros Ha Hm. apply eq_str_true in Ha. rewrite Ha in H1, H2.
      simpl in H1, H2.
      destruct Hm as [Hm | Hm]; rewrite Hm in H2; simpl in H2; split; lia.
Qed.

(** ** Invariants of the statistics *)

Lemma count_languages_positive (repos : list json) :
  forall c c',
    positive_counts c ->
    count_languages c repos = Ok c' -> positive_counts c'.
Proof.
  induction repos as [|r rest IH]; simpl; intros c c' Hpos H.
  - now inversion H; subst.
  - inv_bind H. destruct (truthy a).
    + inv_bind H. inv_bind H. unfold counter_incr in Ha1. inv_bind Ha1.
      inversion Ha1; subst. eapply IH; [|exact H].
      now apply incr_positive.
    + eapply IH; eauto.
Qed.

(** C6.  The statistics of a list of events have [total_events] equal to
    the length of the list, and no entry of the repository histogram, of the
    day histogram or of the language histogram is zero or negative. *)
Theorem stats_invariants :
  (forall events st,
      analyze_events events = Ok st ->
      total_events st = Z.of_nat (List.length events) /\
      positive_counts (repo_counter st) /\
      positive_counts (day_counter st)) /\
  (forall repos lang_stats,
      analyze_languages repos = Ok lang_stats ->
      positive_counts lang_stats).
Proof.
  split.
  - intros events st H.
    destruct (analyze_events_invariants _ _ H) as (H1 & Hr & Hd & _).
    auto.
  - intros repos lang_stats H.
    apply (count_languages_positive repos [] lang_stats positive_nil H).
Qed.

(** ** Structural fields of an event *)

Lemma analyze_event_structure (st st' : stats) (ev : json) :
  analyze_event st ev = Ok st' -> has_structure ev.
Proof.
  unfold analyze_event. intros H.
  inv_bind H. inv_bind H. inv_bind H. inv_bind H. inv_bind H. clear H.
  unfold getitem in *.
  destruct ev as [| | | | |fields]; try discriminate.
  destruct (lookup "type" fields) as [typ|] eqn:Et; try discriminate.
  destruct (lookup "repo" fields) as [repo|] eqn:Er; try discriminate.
  inversion Ha0; subst; clear Ha0.
  destruct a0 as [| | | | |repo]; try discriminate.
  destruct (lookup "name" repo) as [name|] eqn:En; try discriminate.
  destruct (lookup "created_at" fields) as [created|] eqn:Ec;
    try discriminate.
  now exists fields, typ, repo, name, created.
Qed.

Lemma analyze_loop_structure (events : list json) :
  forall st st',
    analyze_loop st events = Ok st' -> Forall has_structure events.
Proof.
  induction events as [|ev rest IH]; simpl; intros st st' H.
  - constructor.
  - inv_bind H. constructor.
    + eapply analyze_event_structure; eauto.
    + eapply IH; eauto.
Qed.

Lemma deltas_app_raise (pre post : list json) (ev : json) (e : exn) :
  is_ok (deltas pre) = true ->
  event_delta ev = Raise e ->
  deltas (pre ++ ev :: post) = Raise e.
Proof.
  induction pre as [|x pre IH]; simpl; intros Hok He.
  - now rewrite He.
  - destruct (event_delta x); simpl in *; try discriminate.
    destruct (deltas pre); simpl in *; try discriminate.
    now rewrite IH.
Qed.

Lemma analyze_events_ok_deltas (events : list json) :
  is_ok (analyze_events events) = is_ok (deltas events).
Proof.
  unfold analyze_events. rewrite analyze_loop_deltas.
  now destruct (deltas events).
Qed.

Section OneEvent.

Variable st : stats.
Variable fields : list (string * json).

Lemma missing_type :
  lookup "type" fields = None ->
  analyze_event st (JDict fields) = Raise (KeyError "type").
Proof. intros H. unfold analyze_event. simpl. now rewrite H. Qed.

Lemma missing_repo (typ : json) :
  lookup "type" fields = Some typ ->
  lookup "repo" fields = None ->
  analyze_event st (JDict fields) = Raise (KeyError "repo").
Proof.
  intros Ht H. unfold analyze_event. simpl. rewrite Ht. simpl.
  now rewrite H.
Qed.

Lemma missing_name (typ : json) (repo : list (string * json)) :
  lookup "type" fields = Some typ ->
  lookup "repo" fields = Some (JDict repo) ->
  lookup "name" repo = None ->
  analyze_event st (JDict fields) = Raise (KeyError "name").
Proof.
  intros Ht Hr H. unfold analyze_event. simpl. rewrite Ht. simpl.
  rewrite Hr. simpl. now rewrite H.
Qed.

Lemma missing_created_at (typ name : json) (repo : list (string * json))
      (k : key) :
  lookup "type" fields = Some typ ->
  lookup "repo" fields = Some (JDict repo) ->
  lookup "name" repo = Some name ->
  hash_key name = Ok k ->
  lookup "created_at" fields = None ->
  analyze_event st (JDict fields) = Raise (KeyError "created_at").
Proof.
  intros Ht Hr Hn Hk H. unfold analyze_event, counter_incr. simpl.
  rewrite Ht. simpl. rewrite Hr. simpl. rewrite Hn. simpl.
  rewrite Hk. simpl. now rewrite H.
Qed.

Variables (typ name : json) (repo : list (string * json)) (k : key)
          (created : string).
Hypothesis Htype : lookup "type" fields = Some typ.
Hypothesis Hrepo : lookup "repo" fields = Some (JDict repo).
Hypothesis Hname : lookup "name" repo = Some name.
Hypothesis Hhash : hash_key name = Ok k.
Hypothesis Hcreated : lookup "created_at" fields = Some (JStr created).

Lemma analyze_event_head :
  analyze_event st (JDict fields) =
  count_kind
    (with_histograms st (incr k (repo_counter st))
                     (incr (KStr (substring 0 10 created)) (day_counter st)))
    typ (JDict fields).
Proof.
  unfold analyze_event, counter_incr. simpl.
  rewrite Htype. simpl. rewrite Hrepo. simpl. rewrite Hname. simpl.
  rewrite Hhash. simpl. rewrite Hcreated. reflexivity.
Qed.

Lemma unknown_kind_ok :
  eq_str typ "PushEvent" = false ->
  eq_str typ "PullRequestEvent" = false ->
  eq_str typ "IssuesEvent" = false ->
  exists st',
    analyze_event st (JDict fields) = Ok st' /\
    commits st' = commits st /\ prs_opened st' = prs_opened st /\
    prs_merged st' = prs_merged st /\ issues st' = issues st.
Proof.
  intros H1 H2 H3. rewrite analyze_event_head. unfold count_kind.
  rewrite H1, H2, H3. eexists. split; [reflexivity|]. simpl. auto.
Qed.

Lemma sparse_payload_ok (payload : list (string * json)) :
  lookup "payload" fields = Some (JDict payload) ->
  (forall x, lookup "size" payload = Some x -> exists n, x = JInt n) ->
  (forall x, lookup "pull_request" payload = Some x ->
             exists pr, x = JDict pr) ->
  exists st', analyze_event st (JDict fields) = Ok st'.
Proof.
  intros Hp Hsize Hpr. rewrite analyze_event_head.
  unfold count_kind, getitem, dict_get. rewrite Hp. cbn [bind].
  destruct (eq_str typ "PushEvent").
  - destruct (lookup "size" payload) as [x|]; cbn [bind].
    + destruct (Hsize x eq_refl) as [n ->]. simpl. eauto.
    + simpl. eauto.
  - destruct (eq_str typ "PullRequestEvent").
    + destruct (lookup "action" payload) as [a|]; cbn [bind].
      * destruct (eq_str a "opened"); [eauto|].
        destruct (eq_str a "closed"); [|eauto].
        destruct (lookup "pull_request" payload) as [x|]; cbn [bind].
        -- destruct (Hpr x eq_refl) as [pr ->].
           destruct (lookup "merged" pr) as [m|]; cbn [bind].
           ++ destruct (truthy m); eauto.
           ++ simpl. eauto.
        -- simpl. eauto.
      * simpl. eauto.
    + destruct (eq_str typ "IssuesEvent"); [|eauto].
      destruct (lookup "action" payload) as [a|]; cbn [bind].
      * destruct (eq_str a "opened"); eauto.
      * simpl. eauto.
Qed.

End OneEvent.

(** C10.  The aggregator returns only on events that carry [type],
    [repo.name] and [created_at]; an event object from which one of them is
    missing makes it raise the [KeyError] of that key, also in the middle of
    a list.  With the three present, an event of an unknown kind changes no
    typed counter and raises nothing, and neither does an event of a known
    kind whose payload lacks [size], [action], [pull_request] or
    [merged]. *)
Theorem aggregator_structural_fields :
  (forall events st,
      analyze_events events = Ok st -> Forall has_structure events) /\
  (forall st fields,
      (lookup "type" fields = None ->
       analyze_event st (JDict fields) = Raise (KeyError "type")) /\
      (forall typ,
          lookup "type" fields = Some typ ->
          lookup "repo" fields = None ->
          analyze_event st (JDict fields) = Raise (KeyError "repo")) /\
      (forall typ repo,
          lookup "type" fields = Some typ ->
          lookup "repo" fields = Some (JDict repo) ->
          lookup "name" repo = None ->
          analyze_event st (JDict fields) = Raise (KeyError "name")) /\
      (forall typ repo name k,
          lookup "type" fields = Some typ ->
          lookup "repo" fields = Some (JDict repo) ->
          lookup "name" repo = Some name ->
          hash_key name = Ok k ->
          lookup "created_at" fields = None ->
          analyze_event st (JDict fields) = Raise (KeyError "created_at")))
  /\
  (forall pre ev post key_name,
      is_ok (analyze_events pre) = true ->
      (forall st, analyze_event st ev = Raise (KeyError key_name)) ->
      analyze_events (pre ++ ev :: post) = Raise (KeyError key_name)) /\
  (forall st fields typ repo name k created,
      lookup "type" fields = Some typ ->
      lookup "repo" fields = Some (JDict repo) ->
      lookup "name" repo = Some name ->
      hash_key name = Ok k ->
      lookup "created_at" fields = Some (JStr created) ->
      (eq_str typ "PushEvent" = false ->
       eq_str typ "PullRequestEvent" = false ->
       eq_str typ "IssuesEvent" = false ->
       exists st',
         analyze_event st (JDict fields) = Ok st' /\
         commits st' = commits st /\ prs_opened st' = prs_opened st /\
         prs_merged st' = prs_merged st /\ issues st' = issues st) /\
      (forall payload,
          lookup "payload" fields = Some (JDict payload) ->
          (forall x, lookup "size" payload = Some x -> exists n, x = JInt n) ->
          (forall x, lookup "pull_request" payload = Some x ->
                     exists pr, x = JDict pr) ->
          exists st', analyze_event st (JDict fields) = Ok st')).
Proof.
  split; [|split; [|split]].
  - intros events st H. eapply analyze_loop_structure. exact H.
  - intros st fields. split; [|split; [|split]].
    + apply missing_type.
    + apply missing_repo.
    + apply missing_name.
    + intros typ repo name k. apply missing_created_at.
  - intros pre ev post key_name Hok Hraise.
    rewrite analyze_events_ok_deltas in Hok.
    specialize (Hraise zero_stats).
    unfold analyze_events. rewrite analyze_loop_deltas.
    rewrite (deltas_app_raise pre post ev (KeyError key_name) Hok);
      [reflexivity|].
    unfold event_delta. now rewrite Hraise.
  - intros st fields typ repo name k created Ht Hr Hn Hk Hc. split.
    + now apply (unknown_kind_ok st fields typ name repo k created).
    + intros payload.
      now apply (sparse_payload_ok st fields typ name repo k created).
Qed.

(** ** Reordering the events *)

Lemma deltas_ok_iff (events : list json) (ds : list delta) :
  deltas events = Ok ds <-> Forall2 (fun ev d => event_delta ev = Ok d) events ds.
Proof.
  revert ds. induction events as [|ev rest IH]; intros ds; simpl.
  - split; intros H; [inversion H; constructor | now inversion H].
  - split; intros H.
    + inv_bind H. inv_bind H. inversion H; subst.
      constructor; [exact Ha | now apply IH].
    + inversion H as [|? d ? ds' Hd Hrest]; subst.
      apply IH in Hrest. now rewrite Hd, Hrest.
Qed.

Lemma deltas_permutation (events events' : list json) :
  Permutation events events' ->
  forall ds,
    deltas events = Ok ds ->
    exists ds', deltas events' = Ok ds' /\ Permutation ds ds'.
Proof.
  induction 1 as [|x l l' _ IH|x y l|l l' l'' _ IH1 _ IH2]; intros ds H.
  - exists ds. split; [exact H | apply Permutation_refl].
  - simpl in H. inv_bind H. inv_bind H. inversion H; subst; clear H.
    destruct (IH _ Ha0) as (ds' & E & P).
    exists (a :: ds'). simpl. rewrite Ha, E. split; [reflexivity|].
    now constructor.
  - simpl in H. inv_bind H. inv_bind H. inversion H; subst; clear H.
    inv_bind Ha0. inv_bind Ha0. inversion Ha0; subst; clear Ha0.
    exists (a1 :: a :: a2). simpl. rewrite Ha1, Ha, Ha2. simpl.
    split; [reflexivity | apply perm_swap].
  - destruct (IH1 _ H) as (ds1 & E1 & P1).
    destruct (IH2 _ E1) as (ds2 & E2 & P2).
    exists ds2. split; [exact E2 | eapply Permutation_trans; eauto].
Qed.

Lemma total_permutation (ns ns' : list Z) :
  Permutation ns ns' -> total ns = total ns'.
Proof.
  induction 1; simpl; try lia.
Qed.

Lemma occurrences_permutation (k : key) (ks ks' : list key) :
  Permutation ks ks' -> occurrences k ks = occurrences k ks'.
Proof.
  induction 1 as [| x l l' _ IH | x y l | l l' l'' _ IH1 _ IH2].
  - reflexivity.
  - rewrite !occurrences_cons. lia.
  - rewrite !occurrences_cons. lia.
  - lia.
Qed.

(** *** Histograms as finite maps *)

Lemma in_count_of (c : counter) (k : key) (n : Z) :
  NoDup (map fst c) -> In (k, n) c -> count_of k c = n.
Proof.
  induction c as [|[k0 n0] c IH]; simpl; intros Hnd Hin; [destruct Hin|].
  inversion Hnd as [|? ? Hnotin Hnd']; subst.
  destruct Hin as [Hin | Hin].
  - inversion Hin; subst. now rewrite key_eqb_refl.
  - destruct (key_eqb k k0) eqn:E; [|now apply IH].
    apply key_eqb_eq in E. subst k0. exfalso. apply Hnotin.
    change k with (fst (k, n)). now apply in_map.
Qed.

Lemma count_of_in (c : counter) (k : key) :
  count_of k c <> 0 -> In (k, count_of k c) c.
Proof.
  induction c as [|[k0 n0] c IH]; simpl; intros H; [congruence|].
  destruct (key_eqb k k0) eqn:E.
  - apply key_eqb_eq in E. subst. now left.
  - right. now apply IH.
Qed.

Lemma same_counts_permutation (c c' : counter) :
  NoDup (map fst c) -> NoDup (map fst c') ->
  positive_counts c -> positive_counts c' ->
  (forall k, count_of k c = count_of k c') ->
  Permutation c c'.
Proof.
  intros Hn Hn' Hp Hp' Hsame.
  apply NoDup_Permutation.
  - eapply NoDup_map_inv; eauto.
  - eapply NoDup_map_inv; eauto.
  - intros [k n]. split; intros Hin.
    + pose proof (in_count_of _ _ _ Hn Hin) as E.
      pose proof (Hp _ _ Hin) as Hpos.
      rewrite Hsame in E. rewrite <- E. apply count_of_in. lia.
    + pose proof (in_count_of _ _ _ Hn' Hin) as E.
      pose proof (Hp' _ _ Hin) as Hpos.
      rewrite <- Hsame in E. rewrite <- E. apply count_of_in. lia.
Qed.

(** *** The busiest day *)

Lemma insert_desc_permutation (x : key * Z) (l : counter) :
  Permutation (insert_desc x l) (x :: l).
Proof.
  induction l as [|y l IH]; simpl; [apply Permutation_refl|].
  destruct (snd x <? snd y); [|apply Permutation_refl].
  eapply Permutation_trans; [apply perm_skip, IH | apply perm_swap].
Qed.

Lemma sort_desc_permutation (c : counter) : Permutation (sort_desc c) c.
Proof.
  induction c as [|x c IH]; simpl; [constructor|].
  eapply Permutation_trans; [apply insert_desc_permutation|].
  now constructor.
Qed.

(** the head of the sorted items is the first entry of the counter among
    those with the highest count *)
Lemma sort_desc_head (c : counter) :
  forall x rest,
    sort_desc c = x :: rest ->
    exists before after,
      c = before ++ x :: after /\
      (forall y, In y before -> snd y < snd x) /\
      (forall y, In y after -> snd y <= snd x).
Proof.
  induction c as [|a c IH]; simpl; intros x rest H; [discriminate|].
  destruct (sort_desc c) as [|y r] eqn:E.
  - assert (c = []) as ->.
    { apply Permutation_nil. rewrite <- E. apply sort_desc_permutation. }
    simpl in H. inversion H; subst.
    exists [], []. repeat split; intros ? [].
  - destruct (IH y r eq_refl) as (before & after & Hc & Hb & Ha).
    simpl in H. destruct (Z.ltb_spec (snd a) (snd y)).
    + inversion H; subst x rest; clear H.
      exists (a :: before), after. rewrite Hc. repeat split; auto.
      intros z [<- | Hz]; auto.
    + inversion H; subst x rest; clear H.
      exists [], c. repeat split; [intros ? []|].
      intros z Hz. rewrite Hc in Hz. apply in_app_or in Hz.
      destruct Hz as [Hz | [<- | Hz]].
      * specialize (Hb z Hz). lia.
      * lia.
      * specialize (Ha z Hz). lia.
Qed.

Lemma busiest_day_spec (st : stats) (d : key) (n : Z) :
  busiest_day st = Some (d, n) ->
  exists before after,
    day_counter st = before ++ (d, n) :: after /\
    (forall y, In y before -> snd y < n) /\
    (forall y, In y after -> snd y <= n).
Proof.
  unfold busiest_day, most_common. intros H.
  destruct (day_counter st) as [|a c] eqn:E; [discriminate|].
  destruct (sort_desc (a :: c)) as [|x rest] eqn:Es; [discriminate|].
  simpl in H. inversion H; subst x.
  apply (sort_desc_head _ _ _ Es).
Qed.

Lemma busiest_day_none (st : stats) :
  busiest_day st = None <-> day_counter st = [].
Proof.
  unfold busiest_day, most_common.
  destruct (day_counter st) as [|a c] eqn:E; [tauto|].
  split; [|discriminate]. intros H.
  destruct (sort_desc (a :: c)) as [|x rest] eqn:Es; [|discriminate].
  exfalso. pose proof (sort_desc_permutation (a :: c)) as P.
  rewrite Es in P. apply Permutation_nil in P. discriminate.
Qed.

Lemma busiest_day_max (st : stats) (d : key) (n : Z) :
  busiest_day st = Some (d, n) ->
  In (d, n) (day_counter st) /\
  forall k m, In (k, m) (day_counter st) -> m <= n.
Proof.
  intros H. destruct (busiest_day_spec _ _ _ H)
    as (before & after & Hc & Hb & Ha).
  rewrite Hc. split; [apply in_or_app; right; now left|].
  intros k m Hin. apply in_app_or in Hin.
  destruct Hin as [Hin | [Hin | Hin]].
  - specialize (Hb _ Hin). simpl in Hb. lia.
  - inversion Hin. lia.
  - specialize (Ha _ Hin). simpl in Ha. lia.
Qed.

Lemma busiest_day_count (st st' : stats) :
  Permutation (day_counter st) (day_counter st') ->
  option_map snd (busiest_day st) = option_map snd (busiest_day st').
Proof.
  intros P.
  destruct (busiest_day st) as [[d n]|] eqn:E;
    destruct (busiest_day st') as [[d' n']|] eqn:E'; simpl.
  - destruct (busiest_day_max _ _ _ E) as [Hin Hmax].
    destruct (busiest_day_max _ _ _ E') as [Hin' Hmax'].
    f_equal. apply Z.le_antisymm.
    + apply (Hmax' d). apply (Permutation_in _ P Hin).
    + apply (Hmax d'). apply (Permutation_in _ (Permutation_sym P) Hin').
  - apply busiest_day_none in E'. rewrite E' in P.
    apply Permutation_sym, Permutation_nil in P.
    apply busiest_day_none in P. congruence.
  - apply busiest_day_none in E. rewrite E in P.
    apply Permutation_nil in P.
    apply busiest_day_none in P. congruence.
  - reflexivity.
Qed.

Lemma busiest_day_unique (st st' : stats) (d : key) (n : Z) :
  Permutation (day_counter st) (day_counter st') ->
  busiest_day st = Some (d, n) ->
  (forall d' n', In (d', n') (day_counter st) -> d' <> d -> n' < n) ->
  busiest_day st' = Some (d, n).
Proof.
  intros P E Huniq.
  pose proof (busiest_day_count st st' P) as Hc. rewrite E in Hc.
  destruct (busiest_day st') as [[d' n']|] eqn:E'; [|discriminate].
  simpl in Hc. inversion Hc; subst n'.
  destruct (busiest_day_max _ _ _ E') as [Hin' _].
  assert (Hin : In (d', n) (day_counter st))
    by apply (Permutation_in _ (Permutation_sym P) Hin').
  destruct (key_eqb d' d) eqn:Ek.
  - apply key_eqb_eq in Ek. now subst.
  - assert (d' <> d) as Hne
        by (intros ->; rewrite key_eqb_refl in Ek; discriminate).
    specialize (Huniq _ _ Hin Hne). lia.
Qed.

(** C4, as the code has it.  Aggregating a permutation of a list of events
    gives the same five counters and the same repository and day histograms
    (the same count for every key, the entries possibly in another order),
    and the busiest day has the same count.  The day reported is the first
    entry, in insertion order, among those with the highest count: it is the
    same for both orders when one day alone has the highest count. *)
Theorem aggregation_order_independent (events events' : list json)
        (st : stats) :
  Permutation events events' ->
  analyze_events events = Ok st ->
  exists st',
    analyze_events events' = Ok st' /\
    (total_events st' = total_events st /\ commits st' = commits st /\
     prs_opened st' = prs_opened st /\ prs_merged st' = prs_merged st /\
     issues st' = issues st) /\
    (forall k, count_of k (repo_counter st') = count_of k (repo_counter st)) /\
    (forall k, count_of k (day_counter st') = count_of k (day_counter st)) /\
    Permutation (repo_counter st) (repo_counter st') /\
    Permutation (day_counter st) (day_counter st') /\
    option_map snd (busiest_day st') = option_map snd (busiest_day st) /\
    (forall d n,
        busiest_day st = Some (d, n) ->
        (exists before after,
            day_counter st = before ++ (d, n) :: after /\
            (forall y, In y before -> snd y < n) /\
            (forall y, In y after -> snd y <= n)) /\
        ((forall d' n', In (d', n') (day_counter st) -> d' <> d -> n' < n) ->
         busiest_day st' = Some (d, n))).
Proof.
  intros P H.
  destruct (analyze_events_deltas _ _ H) as (ds & Hds & Est).
  destruct (deltas_permutation _ _ P _ Hds) as (ds' & Hds' & Pd).
  set (st' := fold_left apply_delta ds' (init_stats events')).
  assert (H' : analyze_events events' = Ok st').
  { unfold analyze_events. rewrite analyze_loop_deltas, Hds'. reflexivity. }
  exists st'. split; [exact H'|].
  destruct (fold_scalars ds (init_stats events)) as (T & C & O & M & I).
  destruct (fold_scalars ds' (init_stats events')) as (T' & C' & O' & M' & I').
  fold st' in T', C', O', M', I'. rewrite <- Est in T, C, O, M, I.
  assert (Hrepo : forall k,
             count_of k (repo_counter st') = count_of k (repo_counter st)).
  { intros k. subst st. unfold st'.
    destruct (fold_histograms ds (init_stats events) k) as [-> _].
    destruct (fold_histograms ds' (init_stats events') k) as [-> _].
    simpl.
    now rewrite (occurrences_permutation k _ _ (Permutation_map d_repo Pd)). }
  assert (Hday : forall k,
             count_of k (day_counter st') = count_of k (day_counter st)).
  { intros k. subst st. unfold st'.
    destruct (fold_histograms ds (init_stats events) k) as [_ ->].
    destruct (fold_histograms ds' (init_stats events') k) as [_ ->].
    simpl.
    now rewrite (occurrences_permutation k _ _ (Permutation_map d_day Pd)). }
  destruct (analyze_events_invariants _ _ H) as (_ & Pr & Pdy & Nr & Nd).
  destruct (analyze_events_invariants _ _ H') as (_ & Pr' & Pdy' & Nr' & Nd').
  assert (Prepo : Permutation (repo_counter st) (repo_counter st'))
    by (apply same_counts_permutation; auto).
  assert (Pday : Permutation (day_counter st) (day_counter st'))
    by (apply same_counts_permutation; auto).
  split.
  { rewrite T, T', C, C', O, O', M, M', I, I'. simpl.
    rewrite (Permutation_length P).
    rewrite (total_permutation _ _ (Permutation_map d_commits Pd)).
    rewrite (total_permutation _ _ (Permutation_map d_opened Pd)).
    rewrite (total_permutation _ _ (Permutation_map d_merged Pd)).
    rewrite (total_permutation _ _ (Permutation_map d_issues Pd)).
    repeat split; reflexivity. }
  repeat (split; [assumption|]).
  split; [symmetry; now apply busiest_day_count|].
  intros d n Hb. split; [now apply busiest_day_spec|].
  intros Huniq. now apply (busiest_day_unique st st' d n).
Qed.

(** ** The caveat of the report *)

Lemma render_empty (username : string) (days : Z) (st : stats)
      (lang_stats : counter) :
  total_events st = 0 ->
  render_dashboard username days st lang_stats
  = [Rule "GitHub Activity Report"; Header username days; empty_history].
Proof. intros H. unfold render_dashboard. now rewrite H. Qed.

Lemma render_caveat (username : string) (days : Z) (st : stats)
      (lang_stats : counter) :
  total_events st <> 0 -> 90 < days ->
  exists body, render_dashboard username days st lang_stats
               = body ++ [caveat].
Proof.
  intros H Hd. unfold render_dashboard.
  apply Z.eqb_neq in H. rewrite H. apply Z.ltb_lt in Hd. rewrite Hd.
  eexists. rewrite !app_assoc. reflexivity.
Qed.

(** C7, as the code has it.  When the window exceeds 90 days and at least
    one event is in it, the report ends with the caveat that results for
    older periods may be incomplete; when no event is in the window the
    report is the header followed by the no-activity notice alone, whose
    text carries its own note on the 90 days, and the caveat is not
    printed. *)
Theorem caveat_after_activity (strptime : string -> option Z)
        (username : string) (days now : Z)
        (events_feed repos_feed : nat -> response) (fuel : nat)
        (events : list json) (printed : list out_item) :
  90 < days ->
  fetch_events strptime events_feed now days fuel = Ok events ->
  report strptime username days now events_feed repos_feed fuel
  = Ok printed ->
  (events <> [] ->
   exists body, printed = body ++ [caveat]) /\
  (events = [] ->
   printed = [Rule "GitHub Activity Report"; Header username days;
              empty_history] /\
   ~ In caveat printed).
Proof.
  intros Hdays Hev H. unfold report in H. rewrite Hev in H. simpl in H.
  inv_bind H. inv_bind H. inv_bind H. inversion H; subst; clear H.
  destruct (analyze_events_invariants _ _ Ha0) as (Htot & _).
  split.
  - intros Hne. apply render_caveat; [|exact Hdays].
    rewrite Htot. destruct events; [congruence | simpl; lia].
  - intros ->. rewrite render_empty by exact Htot.
    split; [reflexivity|].
    intros [C | [C | [C | []]]]; discriminate C.
Qed.

(** * The statements at work on sample data *)

Lemma events_pagination_early_exit_witness :
  events_loop Iso8601.strptime synthetic_feed scenario_cutoff 4 1%nat []
  = Ok (page_1 ++ page_2 ++ page_3, 3%nat).
Proof.
  eapply (proj2 (proj2 (proj2 (proj2
            (events_pagination_early_exit Iso8601.strptime
                                          scenario_cutoff))))).
  - reflexivity.
  - reflexivity.
  - reflexivity.
  - reflexivity.
  - reflexivity.
  - reflexivity.
  - vm_compute. reflexivity.
  - vm_compute. discriminate.
  - vm_compute. reflexivity.
  - vm_compute. discriminate.
  - vm_compute. reflexivity.
  - vm_compute. reflexivity.
  - lia.
Defined.

Lemma window_filter_exact_witness :
  Forall (dated Iso8601.strptime) scenario_events /\
  exists filtered,
    window_filter Iso8601.strptime scenario_cutoff scenario_events
    = Ok filtered /\
    filtered = filter (in_window Iso8601.strptime scenario_cutoff)
                      scenario_events.
Proof.
  assert (HF : Forall (dated Iso8601.strptime) scenario_events)
    by (repeat constructor; eexists; vm_compute; reflexivity).
  split; [exact HF|].
  destruct (window_filter_exact Iso8601.strptime scenario_cutoff
                                scenario_events) as [Htotal Hexact].
  destruct (Htotal HF) as [filtered Hf].
  exists filtered. split; [exact Hf|]. apply (Hexact filtered Hf).
Defined.

Lemma pr_counters_witness :
  exists st,
    analyze_events scenario_events = Ok st /\
    prs_opened st = count_if pr_opened scenario_events /\
    prs_merged st = count_if pr_merged scenario_events.
Proof.
  eexists. split; [vm_compute; reflexivity|].
  apply (proj1 pr_counters). vm_compute. reflexivity.
Defined.

Lemma aggregation_order_independent_witness :
  exists st',
    analyze_events (rev two_days) = Ok st' /\
    total_events st' = 2 /\
    count_of (KStr "2024-01-01") (day_counter st') = 1.
Proof.
  assert (P : Permutation two_days (rev two_days)) by apply perm_swap.
  destruct (aggregation_order_independent
              two_days (rev two_days)
              (mkStats 2 0 0 0 0 [(KStr "octo/app", 2)]
                       [(KStr "2024-01-02", 1); (KStr "2024-01-01", 1)])
              P eq_refl)
    as (st' & H' & (T & _) & _ & Hday & _).
  exists st'. split; [exact H'|]. split; [exact T|].
  rewrite Hday. reflexivity.
Defined.

(** C4, as stated, fails: the same two events in the two possible orders
    give the same day histogram and two different busiest days. *)
Lemma busiest_day_follows_event_order :
  Permutation two_days (rev two_days) /\
  exists st st',
    analyze_events two_days = Ok st /\
    analyze_events (rev two_days) = Ok st' /\
    Permutation (day_counter st) (day_counter st') /\
    busiest_day st = Some (KStr "2024-01-02", 1) /\
    busiest_day st' = Some (KStr "2024-01-01", 1) /\
    busiest_day st <> busiest_day st'.
Proof.
  split; [apply perm_swap|].
  eexists. eexists.
  split; [vm_compute; reflexivity|].
  split; [vm_compute; reflexivity|].
  split; [apply perm_swap|].
  split; [reflexivity|]. split; [reflexivity|]. discriminate.
Qed.

Lemma repos_pagination_terminates_witness :
  exists repos,
    repos_loop repo_feed 5 1%nat [] = Ok (repos, 3%nat) /\
    fetch_repos repo_feed 5 = Ok repos.
Proof.
  apply (proj2 (repos_pagination_terminates repo_feed) 3%nat
               (JList [repo "site" (JStr "Rust")]) 5%nat).
  - lia.
  - intros p Hp.
    assert (p = 1 \/ p = 2)%nat as [-> | ->] by lia;
      eexists; (split; [reflexivity | simpl; lia]).
  - reflexivity.
  - left. simpl. lia.
Defined.

Lemma stats_invariants_witness :
  exists st,
    analyze_events scenario_events = Ok st /\
    total_events st = 6 /\
    positive_counts (repo_counter st) /\
    positive_counts (day_counter st).
Proof.
  eexists. split; [vm_compute; reflexivity|].
  apply (proj1 stats_invariants scenario_events). vm_compute. reflexivity.
Defined.

Lemma caveat_after_activity_witness :
  exists printed,
    report Iso8601.strptime "octocat" 120 scenario_now
           (one_page scenario_events) repo_feed 5 = Ok printed /\
    exists body, printed = body ++ [caveat].
Proof.
  eexists. split; [vm_compute; reflexivity|].
  refine (proj1 (caveat_after_activity
                   Iso8601.strptime "octocat" 120 scenario_now
                   (one_page scenario_events) repo_feed 5 _ _ _ _ _) _).
  - lia.
  - vm_compute. reflexivity.
  - vm_compute. reflexivity.
  - discriminate.
Defined.

(** C7, as stated, fails: a window of 120 days with no event in it gives
    the no-activity notice and no caveat. *)
Lemma no_caveat_without_activity :
  90 < 120 /\
  report Iso8601.strptime "octocat" 120 scenario_now
         (one_page []) repo_feed 5
  = Ok [Rule "GitHub Activity Report"; Header "octocat" 120; empty_history]
  /\
  ~ In caveat
       [Rule "GitHub Activity Report"; Header "octocat" 120; empty_history].
Proof.
  split; [lia|]. split; [vm_compute; reflexivity|].
  intros [C | [C | [C | []]]]; discriminate C.
Qed.

Lemma fatal_responses_abort_witness :
  main Iso8601.strptime decimal (Some "t0ken") "octocat" "5" scenario_now
       (failing_feed (Http 404 None)) repo_feed 5
  = mkRun [Panel "bold red" None "User not found."] (Exited 1).
Proof.
  refine (proj1 (proj2 (proj2
            (fatal_responses_abort
               Iso8601.strptime decimal "t0ken" "octocat" "5" 5
               scenario_now scenario_cutoff
               (failing_feed (Http 404 None)) repo_feed 5 2 _ _ _ _)))
            "User not found." _ _).
  - discriminate.
  - reflexivity.
  - vm_compute. reflexivity.
  - lia.
  - intros p Hp. assert (p = 1)%nat as -> by lia.
    eexists. eexists. split; [reflexivity|].
    split; [simpl; lia|].
    split; [vm_compute; reflexivity | vm_compute; discriminate].
  - reflexivity.
Defined.

(** C8, as stated, fails: a page that comes with status 200 and a body of
    zero bytes is not read as the end of the data; [r.json()] raises, and
    the run ends with the exception instead of a report. *)
Lemma undecodable_body_is_an_error :
  github_request (empty_body_feed 1%nat) = Raise JSONDecodeError /\
  fetch_events Iso8601.strptime empty_body_feed scenario_now 5 5
  = Raise JSONDecodeError /\
  status (main Iso8601.strptime decimal (Some "t0ken") "octocat" "5"
               scenario_now empty_body_feed repo_feed 5)
  = Uncaught JSONDecodeError /\
  status (main Iso8601.strptime decimal (Some "t0ken") "octocat" "5"
               scenario_now (one_page scenario_events) empty_body_feed 5)
  = Uncaught JSONDecodeError.
Proof.
  split; [reflexivity|].
  split; [vm_compute; reflexivity|].
  split; vm_compute; reflexivity.
Qed.

Lemma malformed_last_event_raises_witness :
  fetch_events Iso8601.strptime undated_feed scenario_now 5 5
  = Raise (KeyError "created_at").
Proof.
  refine (proj2 (proj1 (malformed_last_event_raises
                          Iso8601.strptime undated_feed scenario_now 5
                          scenario_cutoff 5 1 push_event [undated_event]
                          _ _ _ _ _ _) _)).
  - vm_compute. reflexivity.
  - lia.
  - intros p Hp. lia.
  - reflexivity.
  - reflexivity.
  - reflexivity.
Defined.

Lemma aggregator_structural_fields_witness :
  analyze_events ([push_event] ++ undated_event :: [issue_event])
  = Raise (KeyError "created_at").
Proof.
  apply (proj1 (proj2 (proj2 aggregator_structural_fields))).
  - reflexivity.
  - intros st.
    refine (proj2 (proj2 (proj2
              (proj1 (proj2 aggregator_structural_fields) st _)))
              (JStr "PushEvent") [("name", JStr "octo/app")]
              (JStr "octo/app") (KStr "octo/app") _ _ _ _ _);
      reflexivity.
Defined.

(** * Further properties of the aggregator *)

Lemma event_delta_scalars (ev : json) (d : delta) :
  event_delta ev = Ok d ->
  d_commits d = push_size ev /\
  d_issues d = (if issue_opened ev then 1 else 0).
Proof.
  intros H.
  unfold event_delta, analyze_event, count_kind, counter_incr, getitem,
    dict_get in H.
  destruct ev as [| | | | |fields]; try discriminate H.
  unfold push_size, issue_opened, is_kind, action_is, field_of, getitem.
  crush_event H; inversion H; subst; clear H; name_strings; cbn;
    repeat match goal with
           | E : ?x = _ |- context [?x] => rewrite E
           end; cbn; auto;
    match goal with
    | E : int_add 0 ?v = Ok ?n |- _ =>
        destruct v; simpl in E; inversion E; subst; cbn; auto
    | _ => idtac
    end.
Qed.

Lemma event_delta_keys (ev : json) (d : delta) :
  event_delta ev = Ok d ->
  d_repo d = repo_key ev /\ d_day d = day_key ev /\
  exists s, field_of ev "created_at" = JStr s.
Proof.
  intros H.
  unfold event_delta, analyze_event, counter_incr, getitem in H.
  destruct ev as [| | | | |fields]; try discriminate H.
  simpl in H.
  destruct (lookup "type" fields) as [typ|] eqn:Et; try discriminate H.
  simpl in H.
  destruct (lookup "repo" fields) as [r|] eqn:Er; try discriminate H.
  simpl in H. destruct r as [| | | | |repo]; try discriminate H.
  destruct (lookup "name" repo) as [name|] eqn:En; try discriminate H.
  simpl in H.
  destruct (hash_key name) as [k| | |] eqn:Ek; try discriminate H.
  simpl in H.
  destruct (lookup "created_at" fields) as [c|] eqn:Ec; try discriminate H.
  simpl in H.
  destruct c as [| | |s|items|]; try discriminate H; simpl in H.
  - destruct (count_kind _ typ (JDict fields)) as [st'| | |] eqn:Ek';
      try discriminate H.
    simpl in H. inversion H; subst; clear H.
    assert (Hc : repo_counter st' = [(k, 1)] /\
                 day_counter st' = [(KStr (substring 0 10 s), 1)]).
    { unfold count_kind in Ek'.
      repeat match type of Ek' with
             | context [if ?b then _ else _] => destruct b
             | context [bind ?m _] => destruct m; simpl in Ek'
             end;
        try discriminate Ek'; inversion Ek'; subst; simpl; auto. }
    destruct Hc as [-> ->]. simpl.
    unfold repo_key, day_key, key_of, field_of.
    rewrite Er, En, Ek, Ec. eauto.
Qed.

Lemma deltas_maps (events : list json) :
  forall ds,
    deltas events = Ok ds ->
    map d_commits ds = map push_size events /\
    total (map d_issues ds) = count_if issue_opened events /\
    map d_repo ds = map repo_key events /\
    map d_day ds = map day_key events /\
    Forall (fun ev => exists s, field_of ev "created_at" = JStr s) events.
Proof.
  induction events as [|ev rest IH]; simpl; intros ds H.
  - inversion H. simpl. repeat split; constructor.
  - inv_bind H. inv_bind H. inversion H; subst; clear H.
    destruct (IH _ Ha0) as (H1 & H2 & H3 & H4 & H5).
    destruct (event_delta_scalars _ _ Ha) as [S1 S2].
    destruct (event_delta_keys _ _ Ha) as (K1 & K2 & K3).
    simpl. rewrite count_if_cons, H1, H2, H3, H4, S1, S2, K1, K2.
    repeat split. now constructor.
Qed.

(** X1.  After aggregation [commits] is the sum of the [size] of the push
    events, a push without [size] counting for nothing, and [issues] is the
    number of issues events with action [opened]; no other event adds to
    either. *)
Theorem commits_and_issues (events : list json) (st : stats) :
  analyze_events events = Ok st ->
  commits st = total (map push_size events) /\
  issues st = count_if issue_opened events.
Proof.
  intros H. destruct (analyze_events_deltas _ _ H) as (ds & Hds & ->).
  destruct (fold_scalars ds (init_stats events)) as (_ & C & _ & _ & I).
  destruct (deltas_maps _ _ Hds) as (H1 & H2 & _).
  rewrite C, I, H1, H2. simpl. split; reflexivity.
Qed.

Lemma counted_incr (k : key) (c : counter) :
  counted (incr k c) = counted c + 1.
Proof.
  unfold counted. induction c as [|[k0 n] c IH]; simpl; [reflexivity|].
  destruct (key_eqb k k0); simpl; lia.
Qed.

Lemma fold_counted (ds : list delta) :
  forall st,
    let st' := fold_left apply_delta ds st in
    counted (repo_counter st')
    = counted (repo_counter st) + Z.of_nat (List.length ds) /\
    counted (day_counter st')
    = counted (day_counter st) + Z.of_nat (List.length ds).
Proof.
  induction ds as [|d ds IH]; intros st; simpl.
  - split; lia.
  - destruct (IH (apply_delta st d)) as [H1 H2]. simpl in H1, H2.
    rewrite H1, H2, !counted_incr. split; lia.
Qed.

Lemma occurrences_in (k : key) (ks : list key) :
  0 < occurrences k ks -> In k ks.
Proof.
  induction ks as [|k' ks IH]; [unfold occurrences; simpl; lia|].
  rewrite occurrences_cons. destruct (key_eqb k k') eqn:E.
  - apply key_eqb_eq in E. subst. intros _. now left.
  - intros H. right. apply IH. lia.
Qed.

(** X2.  Every event is counted once in each histogram: the entry of a key
    is the number of events with that repository name, resp. that day (the
    first ten characters of [created_at], which must be a string), the
    counts of each histogram add up to [total_events], and every day in the
    day histogram is the day of one of the events. *)
Theorem histograms_count_events (events : list json) (st : stats) :
  analyze_events events = Ok st ->
  (forall k, count_of k (repo_counter st)
             = occurrences k (map repo_key events)) /\
  (forall k, count_of k (day_counter st)
             = occurrences k (map day_key events)) /\
  counted (repo_counter st) = total_events st /\
  counted (day_counter st) = total_events st /\
  (forall k n, In (k, n) (day_counter st) ->
               exists ev s,
                 In ev events /\ field_of ev "created_at" = JStr s /\
                 k = KStr (substring 0 10 s)).
Proof.
  intros H.
  destruct (analyze_events_invariants _ _ H) as (T & _ & Pd & _ & Nd).
  destruct (analyze_events_deltas _ _ H) as (ds & Hds & E).
  destruct (deltas_maps _ _ Hds) as (_ & _ & Kr & Kd & Hstr).
  assert (Hday : forall k, count_of k (day_counter st)
                           = occurrences k (map day_key events)).
  { intros k. rewrite E.
    destruct (fold_histograms ds (init_stats events) k) as [_ ->].
    now rewrite Kd. }
  split; [|split; [exact Hday|split; [|split]]].
  - intros k. rewrite E.
    destruct (fold_histograms ds (init_stats events) k) as [-> _].
    now rewrite Kr.
  - rewrite T, E.
    destruct (fold_counted ds (init_stats events)) as [-> _].
    simpl. now rewrite (deltas_length _ _ Hds).
  - rewrite T, E.
    destruct (fold_counted ds (init_stats events)) as [_ ->].
    simpl. now rewrite (deltas_length _ _ Hds).
  - intros k n Hin.
    pose proof (in_count_of _ _ _ Nd Hin) as Hc.
    pose proof (Pd _ _ Hin) as Hpos.
    rewrite Hday in Hc.
    assert (Hk : In k (map day_key events))
      by (apply occurrences_in; lia).
    apply in_map_iff in Hk. destruct Hk as (ev & Hk & Hev).
    rewrite Forall_forall in Hstr. destruct (Hstr ev Hev) as [s Hs].
    exists ev, s. repeat split; auto.
    rewrite <- Hk. unfold day_key. now rewrite Hs.
Qed.

(** ** What the payload must be *)

Section Payload.

Variable st : stats.
Variable fields : list (string * json).
Variables (typ name : json) (repo : list (string * json)) (k : key)
          (created : string).
Hypothesis Htype : lookup "type" fields = Some typ.
Hypothesis Hrepo : lookup "repo" fields = Some (JDict repo).
Hypothesis Hname : lookup "name" repo = Some name.
Hypothesis Hhash : hash_key name = Ok k.
Hypothesis Hcreated : lookup "created_at" fields = Some (JStr created).

Lemma payload_missing :
  known_kind typ = true ->
  lookup "payload" fields = None ->
  analyze_event st (JDict fields) = Raise (KeyError "payload").
Proof.
  intros Hk Hp.
  rewrite (analyze_event_head st fields typ name repo k created) by assumption.
  unfold count_kind, getitem. rewrite Hp. unfold known_kind in Hk.
  destruct (eq_str typ "PushEvent"); [reflexivity|].
  destruct (eq_str typ "PullRequestEvent"); [reflexivity|].
  destruct (eq_str typ "IssuesEvent"); [reflexivity | discriminate].
Qed.

Lemma payload_not_object (payload : json) :
  known_kind typ = true ->
  lookup "payload" fields = Some payload ->
  (forall d, payload <> JDict d) ->
  analyze_event st (JDict fields) = Raise AttributeError.
Proof.
  intros Hk Hp Hno.
  rewrite (analyze_event_head st fields typ name repo k created) by assumption.
  unfold count_kind, getitem. rewrite Hp. cbn [bind].
  assert (Hget : forall key_name default,
             dict_get payload key_name default = Raise AttributeError).
  { intros key_name default. destruct payload; try reflexivity.
    now destruct (Hno fields0). }
  unfold known_kind in Hk.
  destruct (eq_str typ "PushEvent"); [now rewrite Hget|].
  destruct (eq_str typ "PullRequestEvent"); [now rewrite Hget|].
  destruct (eq_str typ "IssuesEvent"); [now rewrite Hget | discriminate].
Qed.

Lemma size_not_a_number (payload : list (string * json)) (size : json) :
  typ = JStr "PushEvent" ->
  lookup "payload" fields = Some (JDict payload) ->
  lookup "size" payload = Some size ->
  (forall n, size <> JInt n) -> (forall b, size <> JBool b) ->
  analyze_event st (JDict fields) = Raise TypeError.
Proof.
  intros -> Hp Hs Hn Hb.
  rewrite (analyze_event_head st fields (JStr "PushEvent") name repo k created)
    by assumption.
  unfold count_kind, getitem, dict_get. cbn [eq_str String.eqb].
  rewrite Hp. cbn. rewrite Hs. cbn.
  destruct size; try reflexivity; [now destruct (Hb b) | now destruct (Hn n)].
Qed.

Lemma pull_request_not_object (payload : list (string * json))
      (pull_request : json) :
  typ = JStr "PullRequestEvent" ->
  lookup "payload" fields = Some (JDict payload) ->
  lookup "action" payload = Some (JStr "closed") ->
  lookup "pull_request" payload = Some pull_request ->
  (forall d, pull_request <> JDict d) ->
  analyze_event st (JDict fields) = Raise AttributeError.
Proof.
  intros -> Hp Ha Hpr Hno.
  rewrite (analyze_event_head st fields (JStr "PullRequestEvent")
                              name repo k created) by assumption.
  unfold count_kind, getitem, dict_get. cbn [eq_str String.eqb].
  rewrite Hp. cbn. rewrite Ha. cbn. rewrite Hpr. cbn.
  destruct pull_request; try reflexivity. now destruct (Hno fields0).
Qed.

End Payload.

(** X3.  For an event of one of the three known kinds the payload is
    required: without a [payload] key the aggregator raises
    [KeyError], with a payload that is not an object it raises
    [AttributeError].  A push whose [size] is present and not a number
    raises [TypeError], and a closed pull request whose [pull_request] is
    present and not an object (a [null], say) raises [AttributeError]: the
    defaults stand in for absent keys only. *)
Theorem payload_requirements (st : stats) (fields : list (string * json))
        (typ name : json) (repo : list (string * json)) (k : key)
        (created : string) :
  lookup "type" fields = Some typ ->
  lookup "repo" fields = Some (JDict repo) ->
  lookup "name" repo = Some name ->
  hash_key name = Ok k ->
  lookup "created_at" fields = Some (JStr created) ->
  (known_kind typ = true ->
   lookup "payload" fields = None ->
   analyze_event st (JDict fields) = Raise (KeyError "payload")) /\
  (forall payload,
      known_kind typ = true ->
      lookup "payload" fields = Some payload ->
      (forall d, payload <> JDict d) ->
      analyze_event st (JDict fields) = Raise AttributeError) /\
  (forall payload size,
      typ = JStr "PushEvent" ->
      lookup "payload" fields = Some (JDict payload) ->
      lookup "size" payload = Some size ->
      (forall n, size <> JInt n) -> (forall b, size <> JBool b) ->
      analyze_event st (JDict fields) = Raise TypeError) /\
  (forall payload pull_request,
      typ = JStr "PullRequestEvent" ->
      lookup "payload" fields = Some (JDict payload) ->
      lookup "action" payload = Some (JStr "closed") ->
      lookup "pull_request" payload = Some pull_request ->
      (forall d, pull_request <> JDict d) ->
      analyze_event st (JDict fields) = Raise AttributeError).
Proof.
  intros Ht Hr Hn Hk Hc. split; [|split; [|split]].
  - now apply (payload_missing st fields typ name repo k created).
  - intros payload.
    now apply (payload_not_object st fields typ name repo k created).
  - intros payload size.
    now apply (size_not_a_number st fields typ name repo k created).
  - intros payload pull_request.
    now apply (pull_request_not_object st fields typ name repo k created).
Qed.

(** * The language histogram *)

Lemma count_languages_step (r : json) (c c' : counter) (rest : list json) :
  count_languages c (r :: rest) = Ok c' ->
  is_object r /\
  exists c1,
    count_languages c1 rest = Ok c' /\
    c1 = (if has_language r then incr (language_key r) c else c) /\
    (has_language r = true ->
     language_key r <> KNone /\ language_key r <> KStr "" /\
     language_key r <> KNum 0).
Proof.
  simpl. intros H. inv_bind H.
  destruct r as [| | | | |fields]; try discriminate Ha.
  split; [now exists fields|].
  unfold has_language, language_key, key_of, field_of.
  unfold dict_get in Ha.
  destruct (lookup "language" fields) as [v|] eqn:E;
    injection Ha as <-.
  - destruct (truthy v) eqn:Tv.
    + unfold getitem in H. rewrite E in H. cbn [bind] in H.
      unfold counter_incr in H.
      apply bind_ok in H. destruct H as (c1 & Hc1 & H).
      apply bind_ok in Hc1. destruct Hc1 as (k & Hk & Hc1).
      injection Hc1 as <-. rewrite Hk.
      exists (incr k c). split; [exact H|]. split; [reflexivity|].
      intros _.
      destruct v; simpl in Hk, Tv; try discriminate Tv; try discriminate Hk;
        injection Hk as <-; try subst b;
        (split; [|split]); try discriminate;
        intros C; injection C as ->; discriminate Tv.
    + exists c. split; [exact H|]. split; [reflexivity | discriminate].
  - simpl in H. exists c. split; [exact H|].
    split; [reflexivity | discriminate].
Qed.

Lemma count_languages_counts (repos : list json) :
  forall c c',
    count_languages c repos = Ok c' ->
    Forall is_object repos /\
    counted c' = counted c + count_if has_language repos /\
    (forall k, count_of k c'
               = count_of k c
                 + occurrences k (map language_key
                                      (filter has_language repos))) /\
    (count_of KNone c' = count_of KNone c /\
     count_of (KStr "") c' = count_of (KStr "") c /\
     count_of (KNum 0) c' = count_of (KNum 0) c).
Proof.
  induction repos as [|r rest IH]; intros c c' H.
  - simpl in H. inversion H; subst. unfold count_if, occurrences. simpl.
    repeat split; try lia. constructor.
  - destruct (count_languages_step _ _ _ _ H)
      as (Hobj & c1 & Hrest & -> & Hkey).
    destruct (IH _ _ Hrest) as (Hobjs & Hsum & Hcount & Hn & He & Hz).
    rewrite count_if_cons. cbn [filter].
    destruct (has_language r) eqn:Hl.
    + destruct (Hkey eq_refl) as (K1 & K2 & K3).
      split; [now constructor|].
      split; [rewrite Hsum, counted_incr; lia|].
      split.
      * intros k. rewrite Hcount, count_of_incr. cbn [map].
        rewrite occurrences_cons. lia.
      * rewrite Hn, He, Hz, !count_of_incr.
        assert (F : forall a b, a <> b -> key_eqb b a = false).
        { intros a b Hab. destruct (key_eqb b a) eqn:E; [|reflexivity].
          apply key_eqb_eq in E. congruence. }
        rewrite (F _ _ K1), (F _ _ K2), (F _ _ K3). repeat split; lia.
    + split; [now constructor|].
      split; [rewrite Hsum; lia|]. split; [exact Hcount | auto].
Qed.

(** X4.  The language histogram counts, under each language, the
    repositories whose [language] is recorded; a repository whose language
    is absent, [null] or empty is in no entry, so the counts add up to the
    number of repositories with a language and there is no entry for
    [None], for the empty string or for zero.  It is computed only when
    every repository is an object. *)
Theorem languages_skip_unrecorded (repos : list json) (lang_stats : counter) :
  analyze_languages repos = Ok lang_stats ->
  Forall is_object repos /\
  counted lang_stats = count_if has_language repos /\
  (forall k, count_of k lang_stats
             = occurrences k (map language_key
                                  (filter has_language repos))) /\
  count_of KNone lang_stats = 0 /\
  count_of (KStr "") lang_stats = 0 /\
  count_of (KNum 0) lang_stats = 0.
Proof.
  intros H.
  destruct (count_languages_counts repos [] lang_stats H)
    as (Hobj & Hsum & Hcount & Hn & He & Hz).
  split; [exact Hobj|]. split; [exact Hsum|].
  split; [intros k; now rewrite Hcount|]. auto.
Qed.

(** * [most_common] *)

Lemma insert_desc_sorted (x : key * Z) (l : counter) :
  StronglySorted by_count_desc l ->
  StronglySorted by_count_desc (insert_desc x l).
Proof.
  induction 1 as [|y l Hs IH Hy]; simpl.
  - repeat constructor.
  - destruct (Z.ltb_spec (snd x) (snd y)) as [Hlt | Hge].
    + constructor; [exact IH|].
      apply (Permutation_Forall
               (Permutation_sym (insert_desc_permutation x l))).
      constructor; [unfold by_count_desc; lia | exact Hy].
    + constructor; [now constructor|].
      constructor; [exact Hge|].
      eapply Forall_impl; [|exact Hy].
      unfold by_count_desc. intros z Hz. lia.
Qed.

Lemma sort_desc_sorted (c : counter) :
  StronglySorted by_count_desc (sort_desc c).
Proof.
  induction c as [|x c IH]; simpl; [constructor|].
  now apply insert_desc_sorted.
Qed.

Lemma sorted_app_inv (l1 l2 : counter) :
  StronglySorted by_count_desc (l1 ++ l2) ->
  StronglySorted by_count_desc l1 /\
  forall x y, In x l1 -> In y l2 -> snd y <= snd x.
Proof.
  induction l1 as [|a l1 IH]; simpl; intros H.
  - split; [constructor | intros x y []].
  - inversion H as [|? ? Hs Ha]; subst.
    destruct (IH Hs) as [Hs1 Hcross].
    rewrite Forall_app in Ha. destruct Ha as [Ha1 Ha2].
    split; [now constructor|].
    intros x y [<- | Hx] Hy.
    + rewrite Forall_forall in Ha2. apply (Ha2 y Hy).
    + now apply Hcross.
Qed.

(** [most_common n] keeps [n] entries of the counter, or all of them when
    there are fewer, in non-increasing order of count; the entries it keeps
    and those it leaves out are together the entries of the counter, and no
    entry left out has a higher count than an entry kept. *)
Lemma most_common_top (n : nat) (c : counter) :
  List.length (most_common n c) = Nat.min n (List.length c) /\
  StronglySorted by_count_desc (most_common n c) /\
  exists left_out,
    Permutation (most_common n c ++ left_out) c /\
    forall x y, In x (most_common n c) -> In y left_out -> snd y <= snd x.
Proof.
  unfold most_common.
  pose proof (sort_desc_permutation c) as P.
  pose proof (sort_desc_sorted c) as S.
  rewrite <- (firstn_skipn n (sort_desc c)) in S.
  destruct (sorted_app_inv _ _ S) as [S1 Hcross].
  split; [|split; [exact S1|]].
  - rewrite length_firstn, (Permutation_length P). reflexivity.
  - exists (skipn n (sort_desc c)).
    split; [now rewrite firstn_skipn | exact Hcross].
Qed.

(** * The report *)

Lemma enumerate_rows (rows : counter) :
  forall i,
    let numbered :=
      map (fun r : nat * (key * Z) => (fst r, fst (snd r), snd (snd r)))
          (enumerate i rows) in
    row_numbers numbered = seq i (List.length rows) /\
    row_entries numbered = rows.
Proof.
  unfold row_numbers, row_entries.
  induction rows as [|[k n] rows IH]; intros i; simpl; [now split|].
  destruct (IH (S i)) as [H1 H2]. simpl in H1, H2.
  now rewrite H1, H2.
Qed.

Lemma render_sections (username : string) (days : Z) (st : stats)
      (lang_stats : counter) :
  render_dashboard username days st lang_stats =
  Rule "GitHub Activity Report" :: Header username days ::
  (if total_events st =? 0 then [empty_history]
   else
     Summary (commits st) (prs_opened st) (prs_merged st) (issues st)
             (busiest_day st) ::
     (match repo_counter st with
      | [] => []
      | _ :: _ =>
          [RepoTable (map (fun r => (fst r, fst (snd r), snd (snd r)))
                          (enumerate 1%nat (most_common 5 (repo_counter st))))]
      end) ++
     (match lang_stats with
      | [] => []
      | _ :: _ => [LangTable (most_common 10 lang_stats)]
      end) ++
     (if 90 <? days then [caveat] else [])).
Proof.
  unfold render_dashboard. simpl.
  destruct (total_events st =? 0); reflexivity.
Qed.

(** X5.  The repository table of the report has between one and five rows,
    numbered from 1, in non-increasing order of events, and no repository
    left out of it has more events than one listed; the language table has
    between one and ten rows under the same order, and is printed exactly
    when some repository has a recorded language and the window has
    events. *)
Theorem report_tables (username : string) (days : Z) (st : stats)
        (lang_stats : counter) :
  let printed := render_dashboard username days st lang_stats in
  (forall rows,
      In (RepoTable rows) printed ->
      (1 <= List.length rows <= 5)%nat /\
      row_numbers rows = seq 1 (List.length rows) /\
      StronglySorted by_count_desc (row_entries rows) /\
      exists left_out,
        Permutation (row_entries rows ++ left_out) (repo_counter st) /\
        forall x y, In x (row_entries rows) -> In y left_out ->
                    snd y <= snd x) /\
  (forall rows,
      In (LangTable rows) printed ->
      (1 <= List.length rows <= 10)%nat /\
      StronglySorted by_count_desc rows /\
      exists left_out,
        Permutation (rows ++ left_out) lang_stats /\
        forall x y, In x rows -> In y left_out -> snd y <= snd x) /\
  ((exists rows, In (LangTable rows) printed) <->
   total_events st <> 0 /\ lang_stats <> []).
Proof.
  intros printed. subst printed. rewrite render_sections.
  split; [|split].
  - intros rows Hin.
    destruct Hin as [C | [C | Hin]]; try discriminate C.
    destruct (total_events st =? 0);
      [destruct Hin as [C | []]; discriminate C|].
    destruct Hin as [C | Hin]; [discriminate C|].
    apply in_app_or in Hin. destruct Hin as [Hin | Hin].
    + destruct (repo_counter st) as [|e c] eqn:Ec; [destruct Hin|].
      destruct Hin as [C | []]. injection C as <-.
      destruct (enumerate_rows (most_common 5 (e :: c)) 1) as [Hn He].
      cbv zeta in Hn, He. rewrite He.
      destruct (most_common_top 5 (e :: c)) as (Hlen & Hs & Hrest).
      rewrite length_map.
      assert (Hl : List.length (enumerate 1 (most_common 5 (e :: c)))
                   = List.length (most_common 5 (e :: c))).
      { rewrite <- (length_map (fun r : nat * (key * Z) =>
                                  (fst r, fst (snd r), snd (snd r)))).
        rewrite <- (length_map (fun r : nat * key * Z => fst (fst r))).
        fold (row_numbers
                (map (fun r : nat * (key * Z) =>
                        (fst r, fst (snd r), snd (snd r)))
                     (enumerate 1 (most_common 5 (e :: c))))).
        rewrite Hn. apply length_seq. }
      rewrite Hl, Hn, Hlen. simpl List.length.
      split; [lia|]. split; [reflexivity|]. split; assumption.
    + apply in_app_or in Hin. destruct Hin as [Hin | Hin].
      * destruct lang_stats; [destruct Hin|].
        destruct Hin as [C | []]; discriminate C.
      * destruct (90 <? days); [|destruct Hin].
        destruct Hin as [C | []]; discriminate C.
  - intros rows Hin.
    destruct Hin as [C | [C | Hin]]; try discriminate C.
    destruct (total_events st =? 0);
      [destruct Hin as [C | []]; discriminate C|].
    destruct Hin as [C | Hin]; [discriminate C|].
    apply in_app_or in Hin. destruct Hin as [Hin | Hin].
    + destruct (repo_counter st); [destruct Hin|].
      destruct Hin as [C | []]; discriminate C.
    + apply in_app_or in Hin. destruct Hin as [Hin | Hin].
      * destruct lang_stats as [|e c] eqn:El; [destruct Hin|].
        destruct Hin as [C | []]. injection C as <-.
        destruct (most_common_top 10 (e :: c)) as (Hlen & Hs & Hrest).
        rewrite Hlen. simpl List.length. split; [lia|]. split; assumption.
      * destruct (90 <? days); [|destruct Hin].
        destruct Hin as [C | []]; discriminate C.
  - split.
    + intros [rows Hin].
      destruct Hin as [C | [C | Hin]]; try discriminate C.
      destruct (Z.eqb_spec (total_events st) 0) as [E | E];
        [destruct Hin as [C | []]; discriminate C|].
      split; [exact E|].
      destruct Hin as [C | Hin]; [discriminate C|].
      apply in_app_or in Hin. destruct Hin as [Hin | Hin].
      * destruct (repo_counter st); [destruct Hin|].
        destruct Hin as [C | []]; discriminate C.
      * apply in_app_or in Hin. destruct Hin as [Hin | Hin].
        -- destruct lang_stats; [destruct Hin | discriminate].
        -- destruct (90 <? days); [|destruct Hin].
           destruct Hin as [C | []]; discriminate C.
    + intros [E Hl]. apply Z.eqb_neq in E. rewrite E.
      destruct lang_stats as [|e c]; [congruence|].
      exists (most_common 10 (e :: c)).
      right. right. right. apply in_or_app. right.
      apply in_or_app. left. now left.
Qed.

(** X6.  The caveat on older periods is printed exactly when the window
    exceeds 90 days and holds at least one event, and the no-activity notice
    exactly when the window holds none; the two never appear together. *)
Theorem report_notices (username : string) (days : Z) (st : stats)
        (lang_stats : counter) :
  let printed := render_dashboard username days st lang_stats in
  (In caveat printed <-> total_events st <> 0 /\ 90 < days) /\
  (In empty_history printed <-> total_events st = 0) /\
  ~ (In caveat printed /\ In empty_history printed).
Proof.
  intros printed. subst printed. rewrite render_sections.
  assert (Hc : In caveat
                  (Rule "GitHub Activity Report" :: Header username days ::
                   (if total_events st =? 0 then [empty_history]
                    else
                      Summary (commits st) (prs_opened st) (prs_merged st)
                              (issues st) (busiest_day st) ::
                      (match repo_counter st with
                       | [] => []
                       | _ :: _ =>
                           [RepoTable
                              (map (fun r => (fst r, fst (snd r), snd (snd r)))
                                   (enumerate 1%nat
                                      (most_common 5 (repo_counter st))))]
                       end) ++
                      (match lang_stats with
                       | [] => []
                       | _ :: _ => [LangTable (most_common 10 lang_stats)]
                       end) ++
                      (if 90 <? days then [caveat] else [])))
               <-> total_events st <> 0 /\ 90 < days).
  { split.
    - intros [C | [C | Hin]]; try discriminate C.
      destruct (Z.eqb_spec (total_events st) 0) as [E | E];
        [destruct Hin as [C | []]; discriminate C|].
      split; [exact E|].
      destruct Hin as [C | Hin]; [discriminate C|].
      apply in_app_or in Hin. destruct Hin as [Hin | Hin].
      + destruct (repo_counter st); [destruct Hin|].
        destruct Hin as [C | []]; discriminate C.
      + apply in_app_or in Hin. destruct Hin as [Hin | Hin].
        * destruct lang_stats; [destruct Hin|].
          destruct Hin as [C | []]; discriminate C.
        * destruct (Z.ltb_spec 90 days); [assumption | destruct Hin].
    - intros [E Hd]. apply Z.eqb_neq in E. rewrite E.
      apply Z.ltb_lt in Hd. rewrite Hd.
      right. right. right. apply in_or_app. right.
      apply in_or_app. right. now left. }
  assert (He : In empty_history
                  (Rule "GitHub Activity Report" :: Header username days ::
                   (if total_events st =? 0 then [empty_history]
                    else
                      Summary (commits st) (prs_opened st) (prs_merged st)
                              (issues st) (busiest_day st) ::
                      (match repo_counter st with
                       | [] => []
                       | _ :: _ =>
                           [RepoTable
                              (map (fun r => (fst r, fst (snd r), snd (snd r)))
                                   (enumerate 1%nat
                                      (most_common 5 (repo_counter st))))]
                       end) ++
                      (match lang_stats with
                       | [] => []
                       | _ :: _ => [LangTable (most_common 10 lang_stats)]
                       end) ++
                      (if 90 <? days then [caveat] else [])))
               <-> total_events st = 0).
  { split.
    - intros [C | [C | Hin]]; try discriminate C.
      destruct (Z.eqb_spec (total_events st) 0) as [E | E]; [exact E|].
      destruct Hin as [C | Hin]; [discriminate C|].
      apply in_app_or in Hin. destruct Hin as [Hin | Hin].
      + destruct (repo_counter st); [destruct Hin|].
        destruct Hin as [C | []]; discriminate C.
      + apply in_app_or in Hin. destruct Hin as [Hin | Hin].
        * destruct lang_stats; [destruct Hin|].
          destruct Hin as [C | []]; discriminate C.
        * destruct (90 <? days); [|destruct Hin].
          destruct Hin as [C | []]; discriminate C.
    - intros E. rewrite E. simpl. right. right. now left. }
  split; [exact Hc|]. split; [exact He|].
  intros [H1 H2]. apply Hc in H1. apply He in H2. tauto.
Qed.

Lemma counted_nil_iff (c : counter) :
  positive_counts c -> (counted c = 0 <-> c = []).
Proof.
  intros Hpos. split; [|intros ->; reflexivity].
  destruct c as [|[k n] c]; [reflexivity|]. intros H. exfalso.
  assert (Hn : 0 < n) by (apply (Hpos k n); now left).
  assert (Hc : 0 <= counted c).
  { clear H Hn. induction c as [|[k' n'] c IH]; [unfold counted; simpl; lia|].
    assert (0 < n') by (apply (Hpos k' n'); right; now left).
    assert (0 <= counted c).
    { apply IH. intros a b [Hab | Hab]; apply (Hpos a b);
        [now left | right; now right]. }
    unfold counted in *. simpl. lia. }
  unfold counted in *. simpl in H. lia.
Qed.

(** X7.  The report of a non-empty list of events always carries the
    summary with a busiest day, whose count is at least one and the highest
    of the day histogram, followed by a repository table with at least one
    row: after aggregation the two emptiness tests of the renderer cannot
    fail. *)
Theorem report_with_activity (username : string) (days : Z)
        (events : list json) (st : stats) (lang_stats : counter) :
  analyze_events events = Ok st ->
  events <> [] ->
  exists d n rows tail,
    render_dashboard username days st lang_stats
    = Rule "GitHub Activity Report" :: Header username days ::
      Summary (commits st) (prs_opened st) (prs_merged st) (issues st)
              (Some (d, n)) ::
      RepoTable rows :: tail /\
    rows <> [] /\
    1 <= n /\ In (d, n) (day_counter st) /\
    forall k m, In (k, m) (day_counter st) -> m <= n.
Proof.
  intros H Hne.
  destruct (analyze_events_invariants _ _ H) as (T & Pr & Pd & _ & _).
  destruct (analyze_events_deltas _ _ H) as (ds & Hds & E).
  destruct (fold_counted ds (init_stats events)) as [Cr Cd].
  rewrite <- E in Cr, Cd. simpl in Cr, Cd.
  rewrite (deltas_length _ _ Hds) in Cr, Cd.
  assert (Hlen : 0 < Z.of_nat (List.length events))
    by (destruct events; [congruence | simpl; lia]).
  assert (Hr : repo_counter st <> []).
  { intros C. apply (counted_nil_iff _ Pr) in C. lia. }
  assert (Hd : day_counter st <> []).
  { intros C. apply (counted_nil_iff _ Pd) in C. lia. }
  destruct (busiest_day st) as [[d n]|] eqn:Eb;
    [|apply busiest_day_none in Eb; congruence].
  destruct (busiest_day_max _ _ _ Eb) as [Hin Hmax].
  rewrite render_sections, Eb.
  replace (total_events st =? 0) with false
    by (symmetry; apply Z.eqb_neq; lia).
  destruct (repo_counter st) as [|e c] eqn:Ec; [congruence|].
  eexists d, n, _, _. split; [reflexivity|].
  split.
  - unfold most_common. intros C.
    apply (f_equal (@List.length _)) in C. rewrite length_map in C.
    destruct (sort_desc (e :: c)) as [|x r] eqn:Es.
    + pose proof (sort_desc_permutation (e :: c)) as P. rewrite Es in P.
      apply Permutation_nil in P. discriminate P.
    + simpl in C. discriminate C.
  - split; [pose proof (Pd d n Hin); lia |]. split; assumption.
Qed.

(** * The pages a fetcher reads *)

Section Pages.

Variable strptime : string -> option Z.
Variable cutoff : Z.
Variable feed : nat -> response.

Lemma repos_page_cases (data : json) (repos : list json) :
  repos_page data repos
  = (negb (Nat.leb 100 (List.length (list_items data))),
     repos ++ list_items data).
Proof.
  destruct (truthy data) eqn:Ht; [destruct (is_list data) eqn:Hl|].
  - destruct data as [| | | | [|x xs] |]; try discriminate.
    unfold repos_page. cbn [truthy is_list negb orb list_items].
    destruct (Z.ltb_spec (Z.of_nat (List.length (x :: xs))) 100);
      destruct (Nat.leb_spec 100 (List.length (x :: xs)));
      try reflexivity; lia.
  - rewrite repos_page_end by now right.
    destruct data; try discriminate; simpl; now rewrite app_nil_r.
  - rewrite repos_page_end by now left.
    destruct data as [| | | | [|x xs] |]; try discriminate; simpl;
      now rewrite app_nil_r.
Qed.

Lemma full_page_iff (page : nat) (data : json) :
  github_request (feed page) = Ok data ->
  (full_page (feed page) <-> (100 <= List.length (list_items data))%nat).
Proof.
  intros Hreq. unfold full_page. rewrite Hreq. split.
  - intros (items & E & Hlen). now inversion E; subst.
  - intros Hlen. destruct data as [| | | | items |]; simpl in Hlen; try lia.
    now exists items.
Qed.

Lemma repos_loop_trace (fuel : nat) :
  forall (page : nat) (repos fetched : list json) (n : nat),
    repos_loop feed fuel page repos = Ok (fetched, n) ->
    (page <= n)%nat /\
    fetched = repos ++ flat_map (page_items feed) (seq page (S n - page)) /\
    (forall p, (page <= p < n)%nat -> full_page (feed p)) /\
    ~ full_page (feed n).
Proof.
  induction fuel as [|fuel IH]; intros page repos fetched n H;
    [discriminate|].
  simpl in H. destruct (github_request (feed page)) as [data| | |] eqn:Hreq;
    try discriminate H.
  simpl in H. rewrite repos_page_cases in H.
  destruct (Nat.leb_spec 100 (List.length (list_items data))) as [Hfull | Hs];
    simpl in H.
  - destruct (IH _ _ _ _ H) as (Hle & Hf & Hbefore & Hlast).
    split; [lia|]. split; [|split; [|exact Hlast]].
    + rewrite Hf. replace (S n - page)%nat with (S (S n - S page)) by lia.
      cbn [seq flat_map]. unfold page_items at 2. rewrite Hreq.
      now rewrite app_assoc.
    + intros p Hp. destruct (Nat.eq_dec p page) as [-> | Hne].
      * now apply (full_page_iff page data Hreq).
      * apply Hbefore. lia.
  - inversion H; subst; clear H. split; [lia|].
    split; [|split; [intros p Hp; lia|]].
    + replace (S n - n)%nat with 1%nat by lia. simpl.
      unfold page_items. rewrite Hreq. now rewrite app_nil_r.
    + intros Hfull. apply (full_page_iff n data Hreq) in Hfull. lia.
Qed.

Lemma events_page_cases (data : json) (events events' : list json)
      (stop : bool) :
  events_page strptime cutoff data events = Ok (stop, events') ->
  events' = events ++ list_items data /\
  (stop = false <->
   exists t, (100 <= List.length (list_items data))%nat /\
             created_at strptime (last_item (list_items data)) = Ok t /\
             cutoff <= t).
Proof.
  intros H.
  assert (Hend : end_of_data data ->
                 list_items data = [] /\ stop = true /\ events' = events).
  { intros He. rewrite (events_page_end _ _ _ _ He) in H.
    inversion H; subst. split; [|now split].
    destruct He as [He | He];
      destruct data as [| | | | [|x xs] |]; try discriminate He;
      reflexivity. }
  destruct (truthy data) eqn:Ht; [destruct (is_list data) eqn:Hl|];
    [|destruct (Hend (or_intror Hl)) as (-> & -> & ->)
     |destruct (Hend (or_introl Ht)) as (-> & -> & ->)];
    try (rewrite app_nil_r; split; [reflexivity|];
         split; [discriminate | intros (t & Hlen & _); simpl in Hlen; lia]).
  destruct (page_is_list data Ht Hl) as (x & xs & ->). clear Hend.
  rewrite events_page_list in H. inv_bind H. inversion H; subst; clear H.
  split; [reflexivity|]. cbn [list_items]. rewrite Ha.
  rewrite orb_false_iff, Z.ltb_ge, Z.ltb_ge. split.
  - intros [H1 H2]. exists a.
    rewrite Znat.Zpos_P_of_succ_nat in H2. cbn [List.length].
    split; [lia|]. split; [reflexivity | lia].
  - intros (t & Hlen & Ht' & Hle). inversion Ht'; subst.
    rewrite Znat.Zpos_P_of_succ_nat. cbn [List.length] in Hlen. split; lia.
Qed.

Lemma full_fresh_page_iff (page : nat) (data : json) :
  github_request (feed page) = Ok data ->
  (full_fresh_page strptime cutoff (feed page) <->
   exists t, (100 <= List.length (list_items data))%nat /\
             created_at strptime (last_item (list_items data)) = Ok t /\
             cutoff <= t).
Proof.
  intros Hreq. unfold full_fresh_page. rewrite Hreq. split.
  - intros (items & t & E & Hlen & Ht & Hle). inversion E; subst.
    now exists t.
  - intros (t & Hlen & Ht & Hle).
    destruct data as [| | | | items |]; simpl in Hlen; try lia.
    now exists items, t.
Qed.

Lemma events_loop_trace (fuel : nat) :
  forall (page : nat) (events fetched : list json) (n : nat),
    events_loop strptime feed cutoff fuel page events = Ok (fetched, n) ->
    (page <= n)%nat /\
    fetched = events ++ flat_map (page_items feed) (seq page (S n - page)) /\
    (forall p, (page <= p < n)%nat ->
               full_fresh_page strptime cutoff (feed p)) /\
    ~ full_fresh_page strptime cutoff (feed n).
Proof.
  induction fuel as [|fuel IH]; intros page events fetched n H;
    [discriminate|].
  rewrite events_loop_unfold in H.
  destruct (github_request (feed page)) as [data| | |] eqn:Hreq;
    try discriminate H.
  cbn [bind] in H. inv_bind H. destruct a as [stop events'].
  cbn [fst snd] in H.
  destruct (events_page_cases _ _ _ _ Ha) as [-> Hstop].
  destruct stop.
  - inversion H; subst; clear H. split; [lia|].
    split; [|split; [intros p Hp; lia|]].
    + replace (S n - n)%nat with 1%nat by lia. simpl.
      unfold page_items. rewrite Hreq. now rewrite app_nil_r.
    + intros Hfull. apply (full_fresh_page_iff n data Hreq) in Hfull.
      apply Hstop in Hfull. discriminate.
  - destruct (IH _ _ _ _ H) as (Hle & Hf & Hbefore & Hlast).
    split; [lia|]. split; [|split; [|exact Hlast]].
    + rewrite Hf. replace (S n - page)%nat with (S (S n - S page)) by lia.
      cbn [seq flat_map]. unfold page_items at 2. rewrite Hreq.
      now rewrite app_assoc.
    + intros p Hp. destruct (Nat.eq_dec p page) as [-> | Hne].
      * apply (full_fresh_page_iff page data Hreq). now apply Hstop.
      * apply Hbefore. lia.
Qed.

End Pages.

(** X8.  What a fetcher accumulates is the items of the pages it read, page
    after page in the order of the server, and nothing else; for the events
    this is the list handed to the window filter. *)
Theorem pages_accumulate_in_order (strptime : string -> option Z)
        (cutoff : Z) (feed : nat -> response) (fuel : nat) :
  (forall repos n,
      repos_loop feed fuel 1%nat [] = Ok (repos, n) ->
      repos = flat_map (page_items feed) (seq 1 n) /\
      fetch_repos feed fuel = Ok repos) /\
  (forall fetched n,
      events_loop strptime feed cutoff fuel 1%nat [] = Ok (fetched, n) ->
      fetched = flat_map (page_items feed) (seq 1 n)).
Proof.
  split.
  - intros repos n H.
    destruct (repos_loop_trace feed fuel _ _ _ _ H) as (_ & Hf & _).
    unfold fetch_repos. rewrite H. simpl in Hf.
    replace (n - 0)%nat with n in Hf by lia. now split.
  - intros fetched n H.
    destruct (events_loop_trace strptime cutoff feed fuel _ _ _ _ H)
      as (_ & Hf & _).
    simpl in Hf. replace (n - 0)%nat with n in Hf by lia. exact Hf.
Qed.

(** X9.  The number of requests a fetcher issues is the number of the first
    page that does not make it go on: every page before the last one read
    was a list of at least 100 items (for the events, with its last item in
    the window), and the last one read was not. *)
Theorem requests_stop_at_first_short_page (strptime : string -> option Z)
        (cutoff : Z) (feed : nat -> response) (fuel : nat) :
  (forall repos n,
      repos_loop feed fuel 1%nat [] = Ok (repos, n) ->
      (1 <= n)%nat /\
      (forall p, (1 <= p < n)%nat -> full_page (feed p)) /\
      ~ full_page (feed n)) /\
  (forall fetched n,
      events_loop strptime feed cutoff fuel 1%nat [] = Ok (fetched, n) ->
      (1 <= n)%nat /\
      (forall p, (1 <= p < n)%nat ->
                 full_fresh_page strptime cutoff (feed p)) /\
      ~ full_fresh_page strptime cutoff (feed n)).
Proof.
  split.
  - intros repos n H.
    destruct (repos_loop_trace feed fuel _ _ _ _ H) as (H1 & _ & H2 & H3).
    auto.
  - intros fetched n H.
    destruct (events_loop_trace strptime cutoff feed fuel _ _ _ _ H)
      as (H1 & _ & H2 & H3).
    auto.
Qed.

(** * The fetcher on a feed that is newest first *)

Lemma strongly_sorted_app {A : Type} (R : A -> A -> Prop) (l1 l2 : list A) :
  StronglySorted R (l1 ++ l2) ->
  StronglySorted R l2 /\
  forall a b, In a l1 -> In b l2 -> R a b.
Proof.
  induction l1 as [|x l1 IH]; simpl; intros H.
  - split; [exact H | intros a b []].
  - inversion H as [|? ? Hs Hx]; subst.
    destruct (IH Hs) as [Hs2 Hcross].
    rewrite Forall_app in Hx. destruct Hx as [_ Hx2].
    split; [exact Hs2|].
    intros a b [<- | Ha] Hb.
    + rewrite Forall_forall in Hx2. now apply Hx2.
    + now apply Hcross.
Qed.

Lemma last_item_in (items : list json) :
  items <> [] -> In (last_item items) items.
Proof.
  intros Hne. unfold last_item.
  rewrite (app_removelast_last JNull Hne) at 2.
  apply in_or_app. right. now left.
Qed.

Lemma github_request_ok_page (items : list json) :
  github_request (ok_page items) = Ok (JList items).
Proof. reflexivity. Qed.

Section NewestFirst.

Variable strptime : string -> option Z.
Variable cutoff : Z.

Lemma events_loop_covers_window (fuel : nat) :
  forall (rest acc : list json) (page : nat) (feed : nat -> response),
    (forall q, feed (page + q)%nat
               = ok_page (firstn 100 (skipn (100 * q) rest))) ->
    (List.length rest < 100 * fuel)%nat ->
    newest_first strptime rest ->
    Forall (dated strptime) rest ->
    exists fetched remaining n,
      events_loop strptime feed cutoff fuel page acc
      = Ok (acc ++ fetched, n) /\
      rest = fetched ++ remaining /\
      Forall (fun ev => in_window strptime cutoff ev = false) remaining.
Proof.
  induction fuel as [|fuel IH]; intros rest acc page feed Hfeed Hlen Hs Hd;
    [lia|].
  assert (Hreq : github_request (feed page)
                 = Ok (JList (firstn 100 rest))).
  { specialize (Hfeed 0%nat). rewrite Nat.add_0_r in Hfeed.
    rewrite Hfeed. reflexivity. }
  destruct rest as [|e rest'] eqn:Er.
  { exists [], [], page. rewrite app_nil_r. split; [|now split].
    apply events_loop_end with (data := JList []); [exact Hreq | now left]. }
  rewrite <- Er in *.
  assert (Hcne : firstn 100 rest <> []) by (rewrite Er; discriminate).
  assert (Hsplit : rest = firstn 100 rest ++ skipn 100 rest)
    by (symmetry; apply firstn_skipn).
  assert (Hlast : In (last_item (firstn 100 rest)) rest).
  { rewrite Hsplit at 2. apply in_or_app. left. now apply last_item_in. }
  rewrite Forall_forall in Hd. destruct (Hd _ Hlast) as [t Ht].
  unfold newest_first in Hs. rewrite Hsplit in Hs.
  destruct (strongly_sorted_app _ _ _ Hs) as [Hs' Hcross].
  destruct (Z.ltb_spec t cutoff) as [Hold | Hfresh];
    [|destruct (Nat.ltb_spec (List.length (firstn 100 rest)) 100)
       as [Hshort | Hfull]].
  - exists (firstn 100 rest), (skipn 100 rest), page.
    split; [|split; [exact Hsplit|]].
    + apply (events_loop_stops _ _ _ _ _ _ _ t); auto.
    + apply Forall_forall. intros ev Hev.
      destruct (Hcross (last_item (firstn 100 rest)) ev
                       (last_item_in _ Hcne) Hev)
        as (t1 & t2 & H1 & H2 & Hle).
      rewrite Ht in H1. inversion H1; subst t1.
      unfold in_window. rewrite H2. apply Z.leb_gt. lia.
  - exists (firstn 100 rest), (skipn 100 rest), page.
    split; [|split; [exact Hsplit|]].
    + apply (events_loop_stops _ _ _ _ _ _ _ t); auto.
    + rewrite length_firstn in Hshort.
      rewrite skipn_all2 by lia. constructor.
  - destruct (IH (skipn 100 rest) (acc ++ firstn 100 rest) (S page) feed)
      as (fetched & remaining & n & Hloop & Hrest & Hout).
    + intros q. replace (S page + q)%nat with (page + S q)%nat by lia.
      rewrite Hfeed, skipn_skipn. do 2 f_equal. f_equal. lia.
    + rewrite length_skipn. rewrite length_firstn in Hfull. lia.
    + exact Hs'.
    + apply Forall_forall. intros ev Hev. apply Hd.
      rewrite Hsplit. apply in_or_app. now right.
    + exists (firstn 100 rest ++ fetched), remaining, n.
      split; [|split; [|exact Hout]].
      * rewrite (events_loop_goes_on _ _ _ _ _ _ (firstn 100 rest) t);
          auto.
        now rewrite Hloop, app_assoc.
      * rewrite <- app_assoc, <- Hrest. exact Hsplit.
Qed.

End NewestFirst.

Lemma filter_none {A : Type} (p : A -> bool) (l : list A) :
  Forall (fun x => p x = false) l -> filter p l = [].
Proof.
  induction 1 as [|x l Hx _ IH]; simpl; [reflexivity|].
  now rewrite Hx.
Qed.

(** X10.  On a server that holds a list of events, newest first, and serves
    it in pages of 100, [fetch_events] returns exactly the events of the
    list that are in the window, in their order: the early exit loses no
    event of the window, however many pages the list fills. *)
Theorem fetch_events_covers_window (strptime : string -> option Z)
        (events : list json) (now days cutoff : Z) (fuel : nat) :
  newest_first strptime events ->
  Forall (dated strptime) events ->
  compute_cutoff now days = Ok cutoff ->
  (List.length events < 100 * fuel)%nat ->
  fetch_events strptime (paged events) now days fuel
  = Ok (filter (in_window strptime cutoff) events).
Proof.
  intros Hs Hd Hcut Hfuel.
  destruct (events_loop_covers_window strptime cutoff fuel events []
                                      1%nat (paged events))
    as (fetched & remaining & n & Hloop & Hsplit & Hout); auto.
  { intros q. unfold paged. do 3 f_equal. lia. }
  unfold fetch_events. rewrite Hcut. cbn [bind]. rewrite Hloop.
  cbn [bind fst app].
  assert (Hdf : Forall (dated strptime) fetched).
  { rewrite Hsplit in Hd. now apply Forall_app in Hd. }
  destruct (window_filter_total strptime cutoff fetched Hdf) as [f Hf].
  rewrite Hf. f_equal.
  rewrite (window_filter_is_filter _ _ _ _ Hf).
  rewrite Hsplit, filter_app, (filter_none _ _ Hout). now rewrite app_nil_r.
Qed.

(** * The run as a whole *)

(** X11.  The two start-up checks come before any request, the credential
    first: without a token, or with an empty one, the run prints the
    missing-token panel and exits with status 1 even when [--days] is wrong;
    with a token, a [--days] that is not an integer or not positive ends the
    run with the usage status 2 and nothing on the console; neither outcome
    depends on what the server would answer.  [validate_days] accepts
    exactly the values [int] reads as a positive integer. *)
Theorem startup_checks (strptime py_int : string -> option Z)
        (username days_arg : string) (now : Z)
        (events_feed repos_feed : nat -> response) (fuel : nat) :
  (forall token,
      token = None \/ token = Some "" ->
      main strptime py_int token username days_arg now
           events_feed repos_feed fuel
      = mkRun [Panel "bold red" None "Missing GITHUB_TOKEN in .env file."]
              (Exited 1)) /\
  (forall token,
      token <> "" ->
      py_int days_arg = None \/
      (exists d, py_int days_arg = Some d /\ d <= 0) ->
      main strptime py_int (Some token) username days_arg now
           events_feed repos_feed fuel
      = mkRun [] (Exited 2)) /\
  (forall days,
      validate_days py_int days_arg = Some days <->
      py_int days_arg = Some days /\ 0 < days).
Proof.
  split; [|split].
  - intros token [-> | ->]; reflexivity.
  - intros token Htok Hbad. unfold main.
    assert (Hv : validate_days py_int days_arg = None).
    { unfold validate_days. destruct Hbad as [-> | (d & -> & Hd)];
        [reflexivity|].
      now apply Z.leb_le in Hd; rewrite Hd. }
    rewrite Hv. destruct token; [congruence | reflexivity].
  - intros days. unfold validate_days.
    destruct (py_int days_arg) as [d|]; [|split; [discriminate | intros [C _]; discriminate C]].
    destruct (Z.leb_spec d 0) as [Hle | Hgt].
    + split; [discriminate|]. intros [E Hpos]. inversion E; subst. lia.
    + split.
      * intros E. inversion E; subst. now split.
      * intros [E _]. exact E.
Qed.

(** X13.  The cutoff is [now] minus the number of days, computed before
    the first request; when the number of days exceeds what [timedelta]
    holds, or the cutoff would fall before the first instant of
    [datetime], [fetch_events] raises [OverflowError] whatever the server
    would answer, and the run ends with that exception and nothing
    printed. *)
Theorem cutoff_range (strptime py_int : string -> option Z)
        (token username days_arg : string) (now days : Z)
        (events_feed repos_feed : nat -> response) (fuel : nat) :
  0 < days ->
  datetime_min <= now <= datetime_max ->
  (days <= timedelta_max_days ->
   datetime_min <= now - days * us_per_day ->
   compute_cutoff now days = Ok (now - days * us_per_day)) /\
  (timedelta_max_days < days \/ now - days * us_per_day < datetime_min ->
   fetch_events strptime events_feed now days fuel = Raise OverflowError /\
   (token <> "" -> validate_days py_int days_arg = Some days ->
    main strptime py_int (Some token) username days_arg now
         events_feed repos_feed fuel
    = mkRun [] (Uncaught OverflowError))).
Proof.
  intros Hpos Hnow. unfold compute_cutoff.
  assert (Habs : Z.abs days = days) by lia. rewrite Habs.
  split.
  - intros Hmax Hmin.
    replace (timedelta_max_days <? days) with false
      by (symmetry; apply Z.ltb_ge; lia).
    replace (now - days * us_per_day <? datetime_min) with false
      by (symmetry; apply Z.ltb_ge; lia).
    replace (datetime_max <? now - days * us_per_day) with false;
      [reflexivity|].
    symmetry. apply Z.ltb_ge. unfold us_per_day. lia.
  - intros Hout.
    assert (Hc : compute_cutoff now days = Raise OverflowError).
    { unfold compute_cutoff. rewrite Habs.
      destruct (Z.ltb_spec timedelta_max_days days); [reflexivity|].
      destruct Hout as [Hout | Hout]; [lia|].
      apply Z.ltb_lt in Hout. now rewrite Hout. }
    assert (Hf : fetch_events strptime events_feed now days fuel
                 = Raise OverflowError)
      by (unfold fetch_events; now rewrite Hc).
    split; [exact Hf|].
    intros Htok Hdays. rewrite (main_runs _ _ _ _ _ days) by assumption.
    unfold report. now rewrite Hf.
Qed.

(** X14.  A status that is none of 404, 401, 403 and below 500 is not an
    error whatever its body says: when the first page of events comes with
    such a status and a JSON object (the message of a 422 or of a 429, say),
    the fetcher returns no event, and the run, once the repositories are
    read, prints the no-activity report and exits with status 0. *)
Theorem unlisted_status_reads_as_no_activity
        (strptime py_int : string -> option Z)
        (token username days_arg : string) (now days cutoff : Z)
        (events_feed repos_feed : nat -> response) (fuel : nat)
        (status_code : Z) (message : list (string * json))
        (repos : list json) (lang_stats : counter) :
  fatal_status status_code = false -> status_code < 500 ->
  events_feed 1%nat = Http status_code (Some (JDict message)) ->
  compute_cutoff now days = Ok cutoff ->
  (1 <= fuel)%nat ->
  fetch_events strptime events_feed now days fuel = Ok [] /\
  (token <> "" -> validate_days py_int days_arg = Some days ->
   fetch_repos repos_feed fuel = Ok repos ->
   analyze_languages repos = Ok lang_stats ->
   main strptime py_int (Some token) username days_arg now
        events_feed repos_feed fuel
   = mkRun [Rule "GitHub Activity Report"; Header username days;
            empty_history] (Exited 0)).
Proof.
  intros Hst Hlt Hfeed Hcut Hfuel.
  assert (Hf : fetch_events strptime events_feed now days fuel = Ok []).
  { unfold fetch_events. rewrite Hcut. cbn [bind].
    destruct fuel as [|fuel]; [lia|].
    rewrite (events_loop_end strptime cutoff events_feed fuel 1 []
                             (JDict message)).
    - reflexivity.
    - rewrite Hfeed. now apply github_request_passes.
    - now right. }
  split; [exact Hf|].
  intros Htok Hdays Hrepos Hlang.
  rewrite (main_runs _ _ _ _ _ days) by assumption.
  unfold report. rewrite Hf. cbn [bind]. rewrite Hrepos. cbn [bind].
  cbn [analyze_events analyze_loop init_stats List.length].
  cbn [bind]. rewrite Hlang. reflexivity.
Qed.

Lemma window_filter_raises (strptime : string -> option Z) (cutoff : Z)
      (pre post : list json) (ev : json) (e : exn) :
  Forall (dated strptime) pre ->
  created_at strptime ev = Raise e ->
  window_filter strptime cutoff (pre ++ ev :: post) = Raise e.
Proof.
  induction 1 as [|x pre [t Ht] _ IH]; intros He; simpl.
  - now rewrite He.
  - rewrite Ht. cbn [bind]. now rewrite IH.
Qed.

(** X15.  The loop reads the timestamp of the last item of a page only, but
    the filter reads them all: when the pages are fetched and one event
    among them, anywhere on a page, has a [created_at] that is missing or
    cannot be read, [fetch_events] raises the exception of the first such
    event instead of returning the others. *)
Theorem unreadable_event_fails_the_filter (strptime : string -> option Z)
        (feed : nat -> response) (now days cutoff : Z) (fuel n : nat)
        (pre post : list json) (ev : json) (e : exn) :
  compute_cutoff now days = Ok cutoff ->
  events_loop strptime feed cutoff fuel 1%nat []
  = Ok (pre ++ ev :: post, n) ->
  Forall (dated strptime) pre ->
  created_at strptime ev = Raise e ->
  fetch_events strptime feed now days fuel = Raise e.
Proof.
  intros Hcut Hloop Hpre He.
  unfold fetch_events. rewrite Hcut. cbn [bind]. rewrite Hloop.
  cbn [bind fst]. now apply window_filter_raises.
Qed.

(** * Insertion order and the busiest day *)

Lemma existsb_key (k : key) (l : list key) :
  existsb (key_eqb k) l = true <-> In k l.
Proof.
  rewrite existsb_exists. split.
  - intros (x & Hx & E). apply key_eqb_eq in E. now subst.
  - intros H. exists k. split; [exact H | apply key_eqb_refl].
Qed.

Lemma seen_prefix (ks : list key) :
  forall acc, exists tail, seen acc ks = acc ++ tail.
Proof.
  induction ks as [|k ks IH]; intros acc; simpl.
  - exists []. now rewrite app_nil_r.
  - destruct (existsb (key_eqb k) acc); [apply IH|].
    destruct (IH (acc ++ [k])) as [tail ->].
    exists (k :: tail). now rewrite <- app_assoc.
Qed.

Lemma seen_app (k1 k2 : list key) :
  forall acc, seen acc (k1 ++ k2) = seen (seen acc k1) k2.
Proof.
  induction k1 as [|k k1 IH]; intros acc; simpl; [reflexivity | apply IH].
Qed.

Lemma seen_holds (ks : list key) :
  forall acc k, In k acc \/ In k ks -> In k (seen acc ks).
Proof.
  induction ks as [|k0 ks IH]; intros acc k H; simpl.
  - destruct H as [H | []]. exact H.
  - apply IH. destruct H as [H | [<- | H]].
    + left. destruct (existsb (key_eqb k0) acc); [exact H|].
      apply in_or_app. now left.
    + left. destruct (existsb (key_eqb k0) acc) eqn:E.
      * now apply existsb_key.
      * apply in_or_app. right. now left.
    + now right.
Qed.

Lemma seen_only (ks : list key) :
  forall acc k, In k (seen acc ks) -> In k acc \/ In k ks.
Proof.
  induction ks as [|k0 ks IH]; intros acc k H; simpl in *.
  - now left.
  - destruct (IH _ _ H) as [Hacc | Hks]; [|right; now right].
    destruct (existsb (key_eqb k0) acc); [now left|].
    apply in_app_or in Hacc. destruct Hacc as [Hacc | [<- | []]].
    + now left.
    + right. now left.
Qed.

Lemma seen_nodup (ks : list key) :
  forall acc, NoDup acc -> NoDup (seen acc ks).
Proof.
  induction ks as [|k ks IH]; intros acc H; simpl; [exact H|].
  apply IH. destruct (existsb (key_eqb k) acc) eqn:E; [exact H|].
  apply NoDup_app; [exact H | repeat constructor; intros [] |].
  intros x Hx [Heq | []]. subst x.
  apply existsb_key in Hx. congruence.
Qed.

Lemma first_occurrence (k : key) (ks : list key) :
  In k ks -> exists k1 k2, ks = k1 ++ k :: k2 /\ ~ In k k1.
Proof.
  induction ks as [|k0 ks IH]; intros H; [destruct H|].
  destruct (key_eqb k0 k) eqn:E.
  - apply key_eqb_eq in E. subst k0. exists [], ks. split; [reflexivity|].
    intros [].
  - assert (Hne : k0 <> k)
      by (intros ->; rewrite key_eqb_refl in E; discriminate).
    destruct H as [H | H]; [congruence|].
    destruct (IH H) as (k1 & k2 & -> & Hnot).
    exists (k0 :: k1), k2. split; [reflexivity|].
    intros [C | C]; [congruence | contradiction].
Qed.

Lemma nodup_split_unique (d : key) (l1 : list key) :
  forall l2 m1 m2,
    NoDup (l1 ++ d :: l2) ->
    l1 ++ d :: l2 = m1 ++ d :: m2 ->
    l1 = m1 /\ l2 = m2.
Proof.
  induction l1 as [|x l1 IH]; intros l2 m1 m2 Hnd E.
  - destruct m1 as [|y m1]; simpl in E.
    + inversion E. now split.
    + inversion E; subst. exfalso. inversion Hnd as [|? ? Hnot _]; subst.
      apply Hnot. apply in_or_app. right. now left.
  - destruct m1 as [|y m1]; simpl in E.
    + inversion E; subst. exfalso. simpl in Hnd.
      inversion Hnd as [|? ? Hnot _]; subst.
      apply Hnot. apply in_or_app. right. now left.
    + inversion E; subst. simpl in Hnd. inversion Hnd; subst.
      destruct (IH l2 m1 m2) as [-> ->]; auto.
Qed.

Lemma nodup_app_disjoint (l1 l2 : list key) (x : key) :
  NoDup (l1 ++ l2) -> In x l1 -> In x l2 -> False.
Proof.
  induction l1 as [|y l1 IH]; simpl; intros Hnd H1 H2; [destruct H1|].
  inversion Hnd as [|? ? Hnot Hnd']; subst.
  destruct H1 as [-> | H1].
  - apply Hnot. apply in_or_app. now right.
  - now apply IH.
Qed.

(** in the order of first occurrence, a key that comes first was first
    seen before the other was seen at all *)
Lemma seen_order (ks l1 l2 : list key) (d d' : key) :
  seen [] ks = l1 ++ d :: l2 ->
  In d' l2 ->
  exists k1 k2, ks = k1 ++ d :: k2 /\ ~ In d k1 /\ ~ In d' k1.
Proof.
  intros E Hd'.
  assert (Hnd : NoDup (seen [] ks)) by (apply seen_nodup; constructor).
  assert (Hin : In d ks).
  { destruct (seen_only ks [] d) as [[] | H]; [|exact H].
    rewrite E. apply in_or_app. right. now left. }
  destruct (first_occurrence d ks Hin) as (k1 & k2 & -> & Hnot).
  exists k1, k2. split; [reflexivity|]. split; [exact Hnot|].
  intros Hk1.
  rewrite seen_app in E, Hnd. cbn [seen] in E, Hnd.
  assert (HdA : existsb (key_eqb d) (seen [] k1) = false).
  { destruct (existsb (key_eqb d) (seen [] k1)) eqn:Ex; [|reflexivity].
    apply existsb_key in Ex.
    destruct (seen_only _ _ _ Ex) as [[] | C]. contradiction. }
  rewrite HdA in E, Hnd.
  destruct (seen_prefix k2 (seen [] k1 ++ [d])) as [tail Ht].
  rewrite Ht, <- app_assoc in E. cbn [app] in E.
  rewrite Ht, <- app_assoc in Hnd. cbn [app] in Hnd.
  assert (Hnd2 : NoDup (l1 ++ d :: l2)) by (rewrite <- E; exact Hnd).
  destruct (nodup_split_unique d l1 l2 (seen [] k1) tail Hnd2 (eq_sym E))
    as [-> ->].
  apply (nodup_app_disjoint (seen [] k1) (d :: tail) d' Hnd).
  - apply seen_holds. now right.
  - now right.
Qed.

Lemma fold_day_order (ds : list delta) :
  forall st,
    map fst (day_counter (fold_left apply_delta ds st))
    = seen (map fst (day_counter st)) (map d_day ds).
Proof.
  induction ds as [|d ds IH]; intros st; simpl; [reflexivity|].
  rewrite IH. simpl. now rewrite incr_keys.
Qed.

(** X16.  When several days share the highest count, the busiest day
    reported is the one among them whose first event comes first in the
    list: up to that event, no event of the list is of another day with the
    same count.  On events that are newest first this is the most recent of
    the tied days. *)
Theorem busiest_day_tie_goes_to_first_seen (events : list json) (st : stats)
        (d d' : key) (n : Z) :
  analyze_events events = Ok st ->
  busiest_day st = Some (d, n) ->
  d' <> d ->
  count_of d' (day_counter st) = n ->
  exists before ev after,
    events = before ++ ev :: after /\
    day_key ev = d /\
    forall x, In x before -> day_key x <> d /\ day_key x <> d'.
Proof.
  intros H Hb Hne Hcount.
  destruct (analyze_events_invariants _ _ H) as (_ & _ & Pd & _ & Nd).
  destruct (analyze_events_deltas _ _ H) as (ds & Hds & E).
  destruct (deltas_maps _ _ Hds) as (_ & _ & _ & Kd & _).
  destruct (busiest_day_spec _ _ _ Hb) as (bf & af & Hdc & Hlt & Hle).
  assert (Hn : 0 < n).
  { apply (Pd d n). rewrite Hdc. apply in_or_app. right. now left. }
  assert (Hin' : In (d', n) (day_counter st)).
  { rewrite <- Hcount. apply count_of_in. lia. }
  assert (Haf : In (d', n) af).
  { rewrite Hdc in Hin'. apply in_app_or in Hin'.
    destruct Hin' as [C | [C | C]]; [|congruence | exact C].
    specialize (Hlt _ C). simpl in Hlt. lia. }
  assert (Hkeys : seen [] (map day_key events)
                  = map fst bf ++ d :: map fst af).
  { rewrite <- Kd.
    change (@nil key) with (map fst (day_counter (init_stats events))).
    rewrite <- fold_day_order, <- E, Hdc, map_app. reflexivity. }
  destruct (seen_order _ _ _ d d' Hkeys) as (k1 & k2 & Hks & Hnd & Hnd').
  { change d' with (fst (d', n)). now apply in_map. }
  apply map_eq_app in Hks. destruct Hks as (before & rest & -> & Hb1 & Hb2).
  apply map_eq_cons in Hb2. destruct Hb2 as (ev & after & -> & Hev & _).
  exists before, ev, after. split; [reflexivity|]. split; [exact Hev|].
  intros x Hx. rewrite <- Hb1 in Hnd, Hnd'.
  split; intros C; [apply Hnd | apply Hnd']; rewrite <- C; now apply in_map.
Qed.

(** * The further statements at work on sample data *)

Ltac by_dates :=
  repeat first
    [ apply SSorted_nil
    | apply SSorted_cons
    | apply Forall_nil
    | apply Forall_cons
    | (eexists; eexists;
       split; [vm_compute; reflexivity|];
       split; [vm_compute; reflexivity | vm_compute; discriminate])
    | (eexists; vm_compute; reflexivity) ].

Lemma commits_and_issues_witness :
  exists st,
    analyze_events scenario_events = Ok st /\
    commits st = total (map push_size scenario_events) /\
    issues st = count_if issue_opened scenario_events.
Proof.
  eexists. split; [vm_compute; reflexivity|].
  apply commits_and_issues. vm_compute. reflexivity.
Defined.

Lemma histograms_count_events_witness :
  exists st,
    analyze_events scenario_events = Ok st /\
    counted (repo_counter st) = total_events st /\
    counted (day_counter st) = total_events st.
Proof.
  eexists. split; [vm_compute; reflexivity|].
  refine (let H := histograms_count_events scenario_events _ _ in
          conj (proj1 (proj2 (proj2 H)))
               (proj1 (proj2 (proj2 (proj2 H))))).
  vm_compute. reflexivity.
Defined.

Lemma payload_requirements_witness :
  analyze_event zero_stats (JDict null_size_fields) = Raise TypeError.
Proof.
  refine (proj1 (proj2 (proj2
            (payload_requirements
               zero_stats null_size_fields (JStr "PushEvent")
               (JStr "octo/app") [("name", JStr "octo/app")]
               (KStr "octo/app") "2024-01-01T10:00:00Z" _ _ _ _ _)))
            [("size", JNull)] JNull _ _ _ _ _);
    try reflexivity; intros ?; discriminate.
Defined.

Lemma languages_skip_unrecorded_witness :
  exists lang_stats,
    analyze_languages sample_repos = Ok lang_stats /\
    counted lang_stats = count_if has_language sample_repos /\
    count_of (KStr "") lang_stats = 0.
Proof.
  eexists. split; [vm_compute; reflexivity|].
  refine (let H := languages_skip_unrecorded sample_repos _ _ in
          conj (proj1 (proj2 H))
               (proj1 (proj2 (proj2 (proj2 (proj2 H)))))).
  vm_compute. reflexivity.
Defined.

Lemma report_tables_witness :
  (1 <= List.length [(1%nat, KStr "octo/app", 2)] <= 5)%nat.
Proof.
  refine (proj1 (proj1 (report_tables "octocat" 30 two_days_stats [])
                       [(1%nat, KStr "octo/app", 2)] _)).
  right. right. right. left. reflexivity.
Defined.

Lemma report_notices_witness :
  In caveat (render_dashboard "octocat" 120 two_days_stats []).
Proof.
  apply (proj2 (proj1 (report_notices "octocat" 120 two_days_stats []))).
  split; [discriminate | reflexivity].
Defined.

Lemma report_with_activity_witness :
  exists d n rows tail,
    render_dashboard "octocat" 30 two_days_stats []
    = Rule "GitHub Activity Report" :: Header "octocat" 30 ::
      Summary 0 0 0 0 (Some (d, n)) :: RepoTable rows :: tail /\
    rows <> [] /\ 1 <= n.
Proof.
  destruct (report_with_activity "octocat" 30 two_days two_days_stats [])
    as (d & n & rows & tail & H1 & H2 & H3 & _).
  - vm_compute. reflexivity.
  - discriminate.
  - now exists d, n, rows, tail.
Defined.

Lemma pages_accumulate_in_order_witness :
  exists repos,
    fetch_repos repo_feed 5 = Ok repos /\
    repos = flat_map (page_items repo_feed) (seq 1 3).
Proof.
  eexists.
  refine (let H := proj1 (pages_accumulate_in_order
                            Iso8601.strptime 0 repo_feed 5) _ 3%nat _ in
          conj (proj2 H) (proj1 H)).
  vm_compute. reflexivity.
Defined.

Lemma requests_stop_at_first_short_page_witness :
  (forall p, (1 <= p < 3)%nat -> full_page (repo_feed p)) /\
  ~ full_page (repo_feed 3).
Proof.
  refine (proj2 (proj1 (requests_stop_at_first_short_page
                          Iso8601.strptime 0 repo_feed 5) _ 3%nat _)).
  vm_compute. reflexivity.
Defined.

Lemma fetch_events_covers_window_witness :
  fetch_events Iso8601.strptime (paged scenario_events) scenario_now 5 1
  = Ok (filter (in_window Iso8601.strptime scenario_cutoff) scenario_events).
Proof.
  apply fetch_events_covers_window.
  - unfold newest_first, scenario_events. by_dates.
  - unfold scenario_events. by_dates.
  - vm_compute. reflexivity.
  - simpl. lia.
Defined.

Lemma startup_checks_witness :
  main Iso8601.strptime decimal None "octocat" "many" scenario_now
       synthetic_feed repo_feed 5
  = mkRun [Panel "bold red" None "Missing GITHUB_TOKEN in .env file."]
          (Exited 1).
Proof.
  apply (proj1 (startup_checks Iso8601.strptime decimal "octocat" "many"
                               scenario_now synthetic_feed repo_feed 5)).
  now left.
Defined.

Lemma cutoff_range_witness :
  fetch_events Iso8601.strptime synthetic_feed scenario_now 1000000000 5
  = Raise OverflowError.
Proof.
  refine (proj1 (proj2 (cutoff_range
                          Iso8601.strptime decimal "t0ken" "octocat"
                          "1000000000" scenario_now 1000000000
                          synthetic_feed repo_feed 5 _ _) _)).
  - lia.
  - unfold datetime_min, datetime_max, scenario_now. lia.
  - left. unfold timedelta_max_days. lia.
Defined.

Lemma unlisted_status_reads_as_no_activity_witness :
  fetch_events Iso8601.strptime rejected_feed scenario_now 5 5 = Ok [].
Proof.
  refine (proj1 (unlisted_status_reads_as_no_activity
                   Iso8601.strptime decimal "t0ken" "octocat" "5"
                   scenario_now 5 scenario_cutoff rejected_feed repo_feed 5
                   422 [("message", JStr "Validation Failed")] [] []
                   _ _ _ _ _)).
  - reflexivity.
  - lia.
  - reflexivity.
  - vm_compute. reflexivity.
  - lia.
Defined.

Lemma unreadable_event_fails_the_filter_witness :
  fetch_events Iso8601.strptime (one_page gap_page) scenario_now 5 5
  = Raise (KeyError "created_at").
Proof.
  apply (unreadable_event_fails_the_filter
           Iso8601.strptime (one_page gap_page) scenario_now 5
           scenario_cutoff 5 1 [issue_event] [push_event] undated_event).
  - vm_compute. reflexivity.
  - vm_compute. reflexivity.
  - by_dates.
  - reflexivity.
Defined.

Lemma busiest_day_tie_goes_to_first_seen_witness :
  exists before ev after,
    two_days = before ++ ev :: after /\
    day_key ev = KStr "2024-01-02" /\
    forall x, In x before ->
              day_key x <> KStr "2024-01-02" /\
              day_key x <> KStr "2024-01-01".
Proof.
  apply (busiest_day_tie_goes_to_first_seen
           two_days two_days_stats _ _ 1).
  - vm_compute. reflexivity.
  - reflexivity.
  - discriminate.
  - reflexivity.
Defined.
